(** * Pitch: cards, hands, bidding and card play

    A shallow embedding of [card.py], [hand.py] and the bidding and
    card-selection methods of [player.py].

    Conventions.
    - Python strings are [string]; [None] is [option]'s [None].
    - Python integers are [Z].  The bid strengths, [aggressiveness] and
      [restraint] are Python floats; they are read here as exact rationals
      ([Q]), so sums and comparisons are the mathematical ones.
    - A method that mutates [self] takes the old state and returns the new one.
    - A Python exception is the [Raise] branch of [result]. *)

From Stdlib Require Import String Ascii List ZArith QArith Qround Lia Bool.
From Stdlib Require Import Permutation Sorted.
Import ListNotations.

Local Open Scope string_scope.
Local Open Scope list_scope.
Local Open Scope Z_scope.

(* ================================================================== *)
(** ** Python built-ins used by the program                            *)
(* ================================================================== *)

Module Py.

Inductive exn : Type :=
| KeyError
| IndexError
| TypeError
| ValueError (msg : string).

Inductive result (A : Type) : Type :=
| Ok (a : A)
| Raise (e : exn).

Arguments Ok {A} a.
Arguments Raise {A} e.

Definition bind {A B : Type} (m : result A) (k : A -> result B) : result B :=
  match m with
  | Ok a => k a
  | Raise e => Raise e
  end.

(** [for x in l: x.m()] where [m] may raise: the first exception wins. *)
Fixpoint mapM {A B : Type} (f : A -> result B) (l : list A) : result (list B) :=
  match l with
  | [] => Ok []
  | x :: xs =>
      bind (f x) (fun y => bind (mapM f xs) (fun ys => Ok (y :: ys)))
  end.

(** A loop that threads a state through the elements of a list. *)
Fixpoint foldM {A S : Type} (f : S -> A -> result S) (l : list A) (s : S)
  : result S :=
  match l with
  | [] => Ok s
  | x :: xs => bind (f s x) (foldM f xs)
  end.

(** [d.get(k)] on a dict written as a literal: the first binding of [k]. *)
Fixpoint lookup {K V : Type} (eqb : K -> K -> bool) (k : K)
  (d : list (K * V)) : option V :=
  match d with
  | [] => None
  | (k', v) :: d' => if eqb k k' then Some v else lookup eqb k d'
  end.

(** [d[k]]: raises [KeyError] on a missing key. *)
Definition getitem {K V : Type} (eqb : K -> K -> bool) (d : list (K * V))
  (k : K) : result V :=
  match lookup eqb k d with
  | Some v => Ok v
  | None => Raise KeyError
  end.

(** [needle in hay] for two strings: the substring test. *)
Definition str_in (needle hay : string) : bool :=
  match String.index 0 needle hay with
  | Some _ => true
  | None => false
  end.

(** [l[:n]], for [n] of either sign. *)
Definition slice_to {A : Type} (l : list A) (n : Z) : list A :=
  if n <? 0
  then firstn (Z.to_nat (Z.of_nat (length l) + n)) l
  else firstn (Z.to_nat n) l.

(** [l.sort(key=key, reverse=True)]: descending, and stable (elements with
    equal keys keep their relative order). *)
Fixpoint insert_desc {A : Type} (key : A -> Z) (x : A) (l : list A) : list A :=
  match l with
  | [] => [x]
  | y :: ys =>
      if key x <? key y then y :: insert_desc key x ys else x :: y :: ys
  end.

Fixpoint sort_desc {A : Type} (key : A -> Z) (l : list A) : list A :=
  match l with
  | [] => []
  | x :: xs => insert_desc key x (sort_desc key xs)
  end.

(** [min(l, key=key)] and [max(l, key=key)]: the first element that attains
    the extreme key; [ValueError] on an empty sequence. *)
Fixpoint min_from {A K : Type} (ltb : K -> K -> bool) (key : A -> K)
  (best : A) (l : list A) : A :=
  match l with
  | [] => best
  | x :: xs =>
      min_from ltb key (if ltb (key x) (key best) then x else best) xs
  end.

Definition min_by {A K : Type} (ltb : K -> K -> bool) (key : A -> K)
  (l : list A) : result A :=
  match l with
  | [] => Raise (ValueError "min() arg is an empty sequence")
  | x :: xs => Ok (min_from ltb key x xs)
  end.

Fixpoint max_from {A K : Type} (ltb : K -> K -> bool) (key : A -> K)
  (best : A) (l : list A) : A :=
  match l with
  | [] => best
  | x :: xs =>
      max_from ltb key (if ltb (key best) (key x) then x else best) xs
  end.

Definition max_by {A K : Type} (ltb : K -> K -> bool) (key : A -> K)
  (l : list A) : result A :=
  match l with
  | [] => Raise (ValueError "max() arg is an empty sequence")
  | x :: xs => Ok (max_from ltb key x xs)
  end.

(** Tuples of two integers compare lexicographically. *)
Definition pair_ltb (p q : Z * Z) : bool :=
  (fst p <? fst q) || ((fst p =? fst q) && (snd p <? snd q)).

(** [l[0]]. *)
Definition first {A : Type} (l : list A) : result A :=
  match l with
  | [] => Raise IndexError
  | x :: _ => Ok x
  end.

(** [random.choice(l)], the random source made explicit: [r] is the number
    the generator draws. *)
Definition choice {A : Type} (r : nat) (l : list A) : result A :=
  match nth_error l (Nat.modulo r (length l)) with
  | Some x => Ok x
  | None => Raise IndexError
  end.

(** [l.sort(key=key)]: ascending and stable, for keys compared by [ltb]. *)
Fixpoint insert_asc {A K : Type} (ltb : K -> K -> bool) (key : A -> K)
  (x : A) (l : list A) : list A :=
  match l with
  | [] => [x]
  | y :: ys =>
      if ltb (key y) (key x)
      then y :: insert_asc ltb key x ys
      else x :: y :: ys
  end.

Fixpoint sort_asc {A K : Type} (ltb : K -> K -> bool) (key : A -> K)
  (l : list A) : list A :=
  match l with
  | [] => []
  | x :: xs => insert_asc ltb key x (sort_asc ltb key xs)
  end.

(** [l[i]] for an integer [i] of either sign. *)
Definition item {A : Type} (l : list A) (i : Z) : result A :=
  let n := Z.of_nat (length l) in
  let j := if i <? 0 then i + n else i in
  if (j <? 0) || (n <=? j) then Raise IndexError
  else match nth_error l (Z.to_nat j) with
       | Some x => Ok x
       | None => Raise IndexError
       end.

(** [l.pop()]: the last element and the list without it. *)
Definition pop {A : Type} (l : list A) : result (A * list A) :=
  match rev l with
  | [] => Raise IndexError
  | x :: r => Ok (x, rev r)
  end.

(** [l.remove(x)]: the first element equal to [x] goes; [ValueError] when
    there is none. *)
Fixpoint remove {A : Type} (eqb : A -> A -> bool) (x : A) (l : list A)
  : result (list A) :=
  match l with
  | [] => Raise (ValueError "list.remove(x): x not in list")
  | y :: ys =>
      if eqb y x then Ok ys
      else bind (remove eqb x ys) (fun ys' => Ok (y :: ys'))
  end.

(** The list without the element at position [j]. *)
Fixpoint remove_at {A : Type} (j : nat) (l : list A) : list A :=
  match l, j with
  | [], _ => []
  | _ :: xs, O => xs
  | x :: xs, S j' => x :: remove_at j' xs
  end.

(** [random.sample(population, k)]: [k] elements at [k] different positions
    of the population, in the order they are selected.  The random source is
    explicit: the draws say, one after the other, which of the positions not
    yet selected comes next (a missing draw counts as 0).  Every selection of
    [k] different positions is the outcome of some draws. *)
Fixpoint sample_from {A : Type} (draws : list nat) (pool : list A) (k : nat)
  : list A :=
  match k with
  | O => []
  | S k' =>
      let j := Nat.modulo (hd O draws) (length pool) in
      match nth_error pool j with
      | Some x => x :: sample_from (tl draws) (remove_at j pool) k'
      | None => []
      end
  end.

Definition sample {A : Type} (draws : list nat) (population : list A) (k : Z)
  : result (list A) :=
  if (k <? 0) || (Z.of_nat (length population) <? k)
  then Raise (ValueError "Sample larger than population or is negative")
  else Ok (sample_from draws population (Z.to_nat k)).

End Py.

Import Py.

Notation "x <- m ;; k" := (Py.bind m (fun x => k))
  (at level 61, m at next level, right associativity).

(* ================================================================== *)
(** ** card.py                                                         *)
(* ================================================================== *)

Module Card.

Record entry : Type := Entry {
  e_rank : Z;
  e_points : Z;
  e_desc : string;
  e_fullname : option string
}.

Definition suit_to_symbol : list (string * string) :=
  [ ("Spades", "♠");
    ("Diamonds", "♦");
    ("Clubs", "♣");
    ("Hearts", "♥");
    ("Joker", "J") ].

Definition card_reference : list (string * entry) :=
  [ ("Ace",    Entry 17 1 "Ace" None);
    ("A",      Entry 17 1 "Ace" (Some "Ace"));
    ("King",   Entry 16 0 "King" None);
    ("K",      Entry 16 0 "King" (Some "King"));
    ("Queen",  Entry 15 0 "Queen" None);
    ("Q",      Entry 15 0 "Queen" (Some "Queen"));
    ("Jack",   Entry 14 1 "Jack" None);
    ("J",      Entry 14 1 "Jack" (Some "Jack"));
    ("X",      Entry 13 1 "Off Jack" None);
    ("Big",    Entry 12 1 "Big Joker" None);
    ("B",      Entry 12 1 "Big Joker" (Some "Big"));
    ("Little", Entry 11 1 "Little Joker" None);
    ("L",      Entry 11 1 "Little Joker" (Some "Little"));
    ("1",      Entry 10 1 "10" (Some "10"));
    ("10",     Entry 10 1 "10" None);
    ("9",      Entry 9 0 "9" None);
    ("8",      Entry 8 0 "8" None);
    ("7",      Entry 7 0 "7" None);
    ("6",      Entry 6 0 "6" None);
    ("5",      Entry 5 0 "5" None);
    ("4",      Entry 4 0 "4" None);
    ("3",      Entry 3 3 "3" None);
    ("2",      Entry 2 1 "2" None);
    ("N",      Entry 0 0 "Off" None);
    ("_",      Entry 0 0 "No play" None) ].

(** The instance attributes.  [name], [suit] and [short_name] are fixed by
    the constructor; the other four change with the trump suit. *)
Record t : Type := Make {
  name : string;
  suit : string;
  short_name : string;
  symbol : string;
  rank : Z;
  points : Z;
  trump_suit : option string
}.

(** [base_symbol]: the test in the source is [name in ('10')], and ['10']
    in parentheses is a string, so the test is a substring test. *)
Definition base_symbol (name : string) : string :=
  if str_in name "10" then name else substring 0 1 name.

Definition ref (key : string) : result entry :=
  getitem String.eqb card_reference key.

(** [Card.__init__] *)
Definition init (name suit : string) : result t :=
  match lookup String.eqb name card_reference with
  | None => Raise (ValueError (String.append "Invalid card name: " name))
  | Some e =>
      let name := match e_fullname e with Some f => f | None => name end in
      match lookup String.eqb suit suit_to_symbol with
      | None => Raise (ValueError (String.append "Invalid suit: " suit))
      | Some suit_symbol =>
          let short_name := String.append (base_symbol name) suit_symbol in
          let symbol := base_symbol name in
          e' <- ref symbol ;;
          Ok (Make name suit short_name symbol (e_rank e') 0 None)
      end
  end.

(** [__lt__], [__gt__], [__eq__] *)
Definition lt (self other : t) : bool := rank self <? rank other.
Definition gt (self other : t) : bool := rank self >? rank other.
Definition eq (self other : t) : bool :=
  String.eqb (short_name self) (short_name other).

Definition color_pairs : list (string * string) :=
  [ ("Spades", "Clubs"); ("Clubs", "Spades");
    ("Diamonds", "Hearts"); ("Hearts", "Diamonds") ].

Definition pair_in (p : string * string) (l : list (string * string)) : bool :=
  existsb (fun q => String.eqb (fst p) (fst q) && String.eqb (snd p) (snd q)) l.

(** [is_trump] *)
Definition is_trump (self : t) (suit : option string) : bool :=
  match (match suit with Some s => Some s | None => trump_suit self end) with
  | None => false
  | Some suit =>
      if String.eqb (Card.suit self) suit || String.eqb (Card.suit self) "Joker"
      then true
      else if String.eqb (symbol self) "X" then true
      else if String.eqb (base_symbol (name self)) "J"
           then pair_in (Card.suit self, suit) color_pairs
           else false
  end.

Definition is_nontrump (self : t) (suit : option string) : bool :=
  negb (is_trump self suit).

(** [get_trump_symbol] *)
Definition get_trump_symbol (self : t) (suit : string) : string :=
  if is_trump self (Some suit) then
    if String.eqb (base_symbol (name self)) "J" then
      if pair_in (Card.suit self, suit) color_pairs
      then "X"
      else base_symbol (name self)
    else symbol self
  else "N".

(** [set_trump] *)
Definition set_trump (self : t) (suit : option string) : result t :=
  let symbol0 := base_symbol (name self) in
  e0 <- ref symbol0 ;;
  let self :=
    Make (name self) (Card.suit self) (short_name self)
         symbol0 (e_rank e0) 0 None in
  match suit with
  | None => Ok self
  | Some s =>
      let symbol1 := get_trump_symbol self s in
      e1 <- ref symbol1 ;;
      e2 <- ref symbol1 ;;
      Ok (Make (name self) (Card.suit self) (short_name self)
               symbol1 (e_rank e1) (e_points e2) (Some s))
  end.

(** [desc] *)
Definition desc (self : t) : result string :=
  e <- ref (symbol self) ;;
  Ok (e_desc e).

End Card.

(* ================================================================== *)
(** ** hand.py                                                         *)
(* ================================================================== *)

Module Hand.

(** The one attribute of a [Hand]: [self.cards]. *)
Definition t : Type := list Card.t.

(** [Hand.set_trump]: every card of the hand is updated in place. *)
Definition set_trump (cards : t) (suit : option string) : result t :=
  mapM (fun card => Card.set_trump card suit) cards.

(** [sort_by_rank] *)
Definition sort_by_rank (cards : t) : t := sort_desc Card.rank cards.

(** The overflow rule of [discard_non_trumps]
    ([if len(self.cards) > 6: ...]). *)
Definition trim (cards : t) : t :=
  if Z.of_nat (length cards) >? 6 then
    let point_cards := filter (fun card => Card.points card >? 0) cards in
    let non_point_cards := filter (fun card => Card.points card =? 0) cards in
    let non_point_cards := sort_desc Card.rank non_point_cards in
    point_cards ++ slice_to non_point_cards (6 - Z.of_nat (length point_cards))
  else cards.

(** The padding rule of [discard_non_trumps]
    ([if is_bidder and len(self.cards) < 6: ...]). *)
Definition pad (is_bidder : bool) (non_trump_cards cards : t) : t :=
  if is_bidder && (Z.of_nat (length cards) <? 6)
  then cards ++ slice_to non_trump_cards (6 - Z.of_nat (length cards))
  else cards.

Definition misdeal : exn := ValueError "Misdeal: Too many point cards in hand.".

(** [discard_non_trumps] *)
Definition discard_non_trumps (cards : t) (suit : option string)
  (is_bidder : bool) : result t :=
  cards <- set_trump cards suit ;;
  let non_trump_cards :=
    if is_bidder
    then filter (fun card => negb (Card.is_trump card suit)) cards
    else [] in
  let cards := filter (fun card => Card.is_trump card suit) cards in
  let cards := trim cards in
  let cards := pad is_bidder non_trump_cards cards in
  let cards := sort_by_rank cards in
  if Z.of_nat (length cards) >? 6
  then Raise misdeal
  else Ok cards.

(** [is_empty], [len], [count], [__getitem__] *)
Definition is_empty (cards : t) : bool := Z.of_nat (length cards) =? 0.
Definition len (cards : t) : Z := Z.of_nat (length cards).
Definition count (cards : t) : Z := Z.of_nat (length cards).
Definition getitem (cards : t) (index : Z) : result Card.t := item cards index.

(** [card in cards]: some element is equal ([==]) to the card. *)
Definition contains (card : Card.t) (cards : list Card.t) : bool :=
  existsb (fun c => Card.eq c card) cards.

(** [sort_by_suit_and_rank]: the keys are computed first, one per card, and
    a suit that [suit_order] does not have raises [KeyError]. *)
Definition suit_order : list (string * Z) :=
  [ ("Spades", 0); ("Hearts", 1); ("Clubs", 2); ("Diamonds", 3);
    ("Joker", 4) ].

Definition sort_by_suit_and_rank (cards : t) : result t :=
  keyed <- mapM (fun card =>
                   o <- Py.getitem String.eqb suit_order (Card.suit card) ;;
                   Ok ((o, - Card.rank card), card)) cards ;;
  Ok (map snd (sort_asc pair_ltb fst keyed)).

(** [replace_cards], [discard_all] *)
Definition replace_cards (cards new_cards : t) : t := new_cards.
Definition discard_all (cards : t) : t := [].

(** The argument of [add_cards] and [remove_cards]: a [Hand], a list of
    cards or one card. *)
Inductive cards_arg : Type :=
| OfHand (h : t)
| OfList (l : list Card.t)
| OfCard (c : Card.t).

(** [add_cards] *)
Definition add_cards (cards : t) (new_cards : cards_arg) : t :=
  let new_cards :=
    match new_cards with
    | OfHand h => h
    | OfList l => l
    | OfCard c => [c]
    end in
  fold_left (fun cards card =>
               if contains card cards then cards else cards ++ [card])
            new_cards cards.

(** [remove_cards], for a list of cards or one card.  (A [Hand] is not a
    list: it would be wrapped in a list and compared with the cards.) *)
Definition remove_cards (cards : t) (cards_to_remove : list Card.t + Card.t)
  : t :=
  let cards_to_remove :=
    match cards_to_remove with
    | inl l => l
    | inr c => [c]
    end in
  filter (fun card => negb (contains card cards_to_remove)) cards.

End Hand.

(* ================================================================== *)
(** ** player.py: bidding                                              *)
(* ================================================================== *)

Module Player.

(** Numbers.  [round(x, 2)] rounds to the nearest hundredth, a tie going to
    the even neighbour; [int(x)] truncates toward zero. *)
Definition round_half_even (q : Q) : Z :=
  let f := Qfloor q in
  match (q - inject_Z f ?= 1 # 2)%Q with
  | Lt => f
  | Gt => f + 1
  | Eq => if Z.even f then f else f + 1
  end.

Definition round2 (q : Q) : Q :=
  (inject_Z (round_half_even (q * 100)) / 100)%Q.

Definition int (q : Q) : Z := Z.quot (Qnum q) (Zpos (Qden q)).

Definition sum (l : list Q) : Q := fold_left Qplus l 0%Q.

Definition Qlt_bool (x y : Q) : bool := negb (Qle_bool y x).

(** [max(0, x)] *)
Definition max0 (x : Q) : Q := if Qlt_bool 0 x then x else 0%Q.

Definition default_bid_strength : list (Z * Q) :=
  [ (17, 2.5%Q); (16, 1.5%Q); (15, 1.25%Q);
    (14, 0.75%Q);  (* Main Jack *)
    (13, 0.75%Q);  (* Off Jack *)
    (12, 0.5%Q);   (* Big Joker *)
    (11, 0.5%Q);   (* Little Joker *)
    (10, 0.5%Q); (9, 0.25%Q); (8, 0.25%Q);
    (7, 0.1%Q); (6, 0.1%Q); (5, 0.1%Q); (4, 0.1%Q);
    (3, 1.5%Q); (2, 1%Q); (1, 0%Q); (0, 0%Q) ].

(** The attributes of a [Player] that bidding and card play read or write.
    [aggressiveness], [restraint] and [bid_strength] are the entries of the
    [strategies] dict.  [bid_value] holds [None], a float or an integer at
    different times; it is a rational here, and the bid the method returns
    is an integer. *)
Record t : Type := Make {
  position : option Z;
  hand : Hand.t;
  bid_value : option Q;
  bidding_suit : option string;
  aggressiveness : Q;
  restraint : Q;
  bid_strength : list (Z * Q)
}.

Definition set_hand (self : t) (h : Hand.t) : t :=
  Make (position self) h (bid_value self) (bidding_suit self)
       (aggressiveness self) (restraint self) (bid_strength self).

Definition set_bid (self : t) (v : option Q) (s : option string) : t :=
  Make (position self) (hand self) v s
       (aggressiveness self) (restraint self) (bid_strength self).

(** [is_partner] *)
Definition is_partner (self : t) (player_position : option Z) : bool :=
  match player_position with
  | None => false
  | Some p =>
      if p =? 0 then false
      else match position self with
           | Some q => q =? (p + 2) mod 4
           | None => false
           end
  end.

Definition suits : list string := ["Spades"; "Hearts"; "Clubs"; "Diamonds"].

(** The strength of the hand as it stands:
    [round(sum([bid_strength[card.rank] for card in self.hand]), 2)]. *)
Definition strength (bid_strength : list (Z * Q)) (hand : Hand.t) : result Q :=
  trump_ranks <-
    mapM (fun card => getitem Z.eqb bid_strength (Card.rank card)) hand ;;
  Ok (round2 (sum trump_ranks)).

(** The test [not self.bid_value or suit_bid > self.bid_value]: [None] and
    zero are both falsy. *)
Definition replaces (suit_bid : Q) (bid_value : option Q) : bool :=
  match bid_value with
  | None => true
  | Some b => Qeq_bool b 0 || Qlt_bool b suit_bid
  end.

(** The body of the loop over the four suits. *)
Definition evaluate_suit (self : t) (suit : string) : result t :=
  h <- Hand.set_trump (hand self) (Some suit) ;;
  let self := set_hand self h in
  suit_bid <- strength (bid_strength self) (hand self) ;;
  if replaces suit_bid (bid_value self)
  then Ok (set_bid self (Some suit_bid) (Some suit))
  else Ok self.

(** The last steps, from the computed bid on: truncation, the minimum bid
    and the comparison with the current bid. *)
Definition final_bid (computed : Q) (current_bid : Z) : Z :=
  let bid_value := int computed in
  let bid_value := if bid_value <? 5 then 0 else bid_value in
  if bid_value <=? current_bid then 0
  else if (bid_value >? current_bid) && (current_bid >? 0) then current_bid + 1
  else if bid_value >=? 7 then 6
  else bid_value.

(** The computed bid: aggressiveness added, restraint subtracted when the
    partner holds the bid. *)
Definition computed_bid (self : t) (best : Q) (current_bidder : option Z) : Q :=
  let bid_value := (best + aggressiveness self)%Q in
  if is_partner self current_bidder
  then max0 (bid_value - restraint self)
  else bid_value.

(** [default_bid_strategy]: the bid it returns and the player it leaves. *)
Definition default_bid_strategy (self : t) (current_bid : Z)
  (current_bidder : option Z) : result (Z * t) :=
  let self := set_bid self None None in
  self <- foldM evaluate_suit suits self ;;
  h <- Hand.set_trump (hand self) None ;;
  let self := set_hand self h in
  match bid_value self with
  | None => Raise TypeError
  | Some best =>
      let bid := final_bid (computed_bid self best current_bidder) current_bid in
      Ok (bid, set_bid self (Some (inject_Z bid)) (bidding_suit self))
  end.

(* ------------------------------------------------------------------ *)
(** *** Card play                                                       *)
(* ------------------------------------------------------------------ *)

(** The entries of [game_state] that the play strategies read:
    [game_state.get('trumps', None)], [game_state.get('trumps_led', False)]
    and [game_state.get('trick', [])], whose entries are cards or [None]. *)
Record game_state : Type := GameState {
  trumps : option string;
  trumps_led : bool;
  trick : list (option Card.t)
}.

Definition trump_cards_of (cards : Hand.t) (gs : game_state) : list Card.t :=
  filter (fun card => Card.is_trump card (trumps gs)) cards.

Definition min_rank (l : list Card.t) : result Card.t :=
  min_by Z.ltb Card.rank l.

Definition max_rank (l : list Card.t) : result Card.t :=
  max_by Z.ltb Card.rank l.

Definition nonempty {A : Type} (l : list A) : bool :=
  match l with [] => false | _ :: _ => true end.

(** [rank not in [2, 3]], [rank not in [2, 17]] *)
Definition not_in (x : Z) (l : list Z) : bool := negb (existsb (Z.eqb x) l).

(** [max(played_ranks, default=0)] over the cards of the trick that are
    not [None]. *)
Definition highest_played_rank (gs : game_state) : Z :=
  let played_ranks :=
    flat_map (fun c => match c with Some card => [Card.rank card] | None => [] end)
             (trick gs) in
  match played_ranks with
  | [] => 0
  | r :: rs => max_from Z.ltb (fun r => r) r rs
  end.

(** [play_random]; [r] is the draw of the random generator. *)
Definition play_random (r : nat) (cards : Hand.t) (gs : game_state)
  : result Card.t :=
  let trump_cards := trump_cards_of cards gs in
  if trumps_led gs && nonempty trump_cards
  then choice r trump_cards
  else choice r cards.

(** [play_highest] *)
Definition play_highest (cards : Hand.t) (gs : game_state) : result Card.t :=
  max_rank cards.

(** [play_lowest] *)
Definition play_lowest (cards : Hand.t) (gs : game_state) : result Card.t :=
  let trump_cards := trump_cards_of cards gs in
  if trumps_led gs && nonempty trump_cards
  then min_rank trump_cards
  else min_rank cards.

(** [play_highest_no_point] *)
Definition play_highest_no_point (cards : Hand.t) (gs : game_state)
  : result Card.t :=
  let trump_cards := trump_cards_of cards gs in
  let zero_point_cards :=
    filter (fun card => Card.points card =? 0) trump_cards in
  if nonempty zero_point_cards
  then max_rank zero_point_cards
  else max_rank cards.

(** The end of [play_highest_points]: no point card was chosen. *)
Definition lowest_trump_or_card (cards : Hand.t) (gs : game_state)
  : result Card.t :=
  let trump_cards := trump_cards_of cards gs in
  if trumps_led gs && nonempty trump_cards
  then min_by pair_ltb (fun card => (Card.points card, Card.rank card))
              trump_cards
  else min_rank cards.

(** [play_highest_points] *)
Definition play_highest_points (cards : Hand.t) (gs : game_state)
  : result Card.t :=
  let point_cards := filter (fun card => Card.points card >? 0) cards in
  match point_cards with
  | [] => lowest_trump_or_card cards gs
  | p :: ps =>
      let max_points :=
        max_from Z.ltb (fun x => x) (Card.points p) (map Card.points ps) in
      let highest_point_cards :=
        filter (fun card => Card.points card =? max_points) point_cards in
      let highest_point_cards :=
        filter (fun card => negb (Card.rank card =? 17)) highest_point_cards in
      let catchable_cards :=
        filter (fun card => negb (Card.rank card =? 2)) highest_point_cards in
      if nonempty catchable_cards then min_rank catchable_cards
      else if nonempty highest_point_cards then min_rank highest_point_cards
      else lowest_trump_or_card cards gs
  end.

(** [play_lowest_no_point] *)
Definition play_lowest_no_point (cards : Hand.t) (gs : game_state)
  : result Card.t :=
  let trump_cards := trump_cards_of cards gs in
  let two_of_trumps := filter (fun card => Card.rank card =? 2) trump_cards in
  if nonempty two_of_trumps then first two_of_trumps
  else
    let zero_point_trumps :=
      filter (fun card => Card.points card =? 0) trump_cards in
    if nonempty zero_point_trumps then min_rank zero_point_trumps
    else if nonempty trump_cards then
      let single_point_cards :=
        filter (fun card => Card.points card =? 1) trump_cards in
      if nonempty single_point_cards then min_rank single_point_cards
      else min_by Z.ltb Card.points trump_cards
    else min_rank cards.

(** [play_just_higher] *)
Definition play_just_higher (cards : Hand.t) (gs : game_state)
  : result Card.t :=
  let highest := highest_played_rank gs in
  let just_higher_cards :=
    filter (fun card => (Card.rank card >? highest)
                        && not_in (Card.rank card) [2; 3]) cards in
  if nonempty just_higher_cards then min_rank just_higher_cards
  else play_lowest_no_point cards gs.

(** [play_single_point] *)
Definition play_single_point (cards : Hand.t) (gs : game_state)
  : result Card.t :=
  let single_point_cards :=
    filter (fun card => (Card.points card =? 1)
                        && not_in (Card.rank card) [2; 17]) cards in
  if nonempty single_point_cards then min_rank single_point_cards
  else
    let two_cards := filter (fun card => Card.rank card =? 2) cards in
    if nonempty two_cards then first two_cards
    else
      let trump_cards := trump_cards_of cards gs in
      let no_point_cards :=
        filter (fun card => Card.points card =? 0) trump_cards in
      if trumps_led gs && nonempty no_point_cards then min_rank no_point_cards
      else if trumps_led gs && nonempty trump_cards then min_rank trump_cards
      else min_rank cards.

(** [play_off] *)
Definition play_off (cards : Hand.t) (gs : game_state) : result Card.t :=
  let non_trump_cards := filter (fun card => Card.rank card <? 2) cards in
  if nonempty non_trump_cards && negb (trumps_led gs)
  then first non_trump_cards
  else
    let two_cards := filter (fun card => Card.rank card =? 2) cards in
    if nonempty two_cards then first two_cards
    else
      let lowest_no_point_cards :=
        filter (fun card => Card.points card =? 0) cards in
      if nonempty lowest_no_point_cards then min_rank lowest_no_point_cards
      else
        let single_point_cards :=
          filter (fun card => Card.points card =? 1) cards in
        if nonempty single_point_cards then min_rank single_point_cards
        else min_rank cards.

(** [play_save_point] *)
Definition play_save_point (cards : Hand.t) (gs : game_state)
  : result Card.t :=
  let highest := highest_played_rank gs in
  let single_point_cards :=
    filter (fun card => (Card.points card =? 1)
                        && not_in (Card.rank card) [2; 17]
                        && (Card.rank card >? highest)) cards in
  if nonempty single_point_cards then min_rank single_point_cards
  else play_off cards gs.

(** The ten play strategies by name. *)
Inductive strategy : Type :=
| Random (r : nat)
| Highest
| Lowest
| HighestNoPoint
| HighestPoints
| JustHigher
| LowestNoPoint
| SinglePoint
| SavePoint
| Off.

Definition select (s : strategy) : Hand.t -> game_state -> result Card.t :=
  match s with
  | Random r => play_random r
  | Highest => play_highest
  | Lowest => play_lowest
  | HighestNoPoint => play_highest_no_point
  | HighestPoints => play_highest_points
  | JustHigher => play_just_higher
  | LowestNoPoint => play_lowest_no_point
  | SinglePoint => play_single_point
  | SavePoint => play_save_point
  | Off => play_off
  end.

(** A strategy as a method of the player: it reads [self.hand.cards] and
    assigns nothing, so the player it leaves is the player it was given. *)
Definition play (s : strategy) (self : t) (gs : game_state)
  : result (Card.t * t) :=
  card <- select s (hand self) gs ;;
  Ok (card, self).

(** [choose_trumps] *)
Definition choose_trumps (self : t) : option string := bidding_suit self.

(** [default_play_strategy]: [self.hand[0]]. *)
Definition default_play_strategy (self : t) (gs : game_state)
  : result Card.t :=
  Hand.getitem (hand self) 0.

(** [play_card].  The configured strategy reads the player and the game
    state and returns a card or [None]; [r] is the draw of the random
    generator for the fallback.  A card is an object without [__bool__] or
    [__len__], so [not played_card] holds for [None] only. *)
Definition play_card (r : nat)
  (play_strategy : t -> game_state -> result (option Card.t))
  (self : t) (gs : game_state) : result (Card.t * t) :=
  played_card <- play_strategy self gs ;;
  played_card <-
    match played_card with
    | Some card => Ok card
    | None => play_random r (hand self) gs
    end ;;
  Ok (played_card,
      set_hand self (Hand.remove_cards (hand self) (inr played_card))).

(** One of the ten strategies as the configured strategy. *)
Definition builtin (s : strategy) (self : t) (gs : game_state)
  : result (option Card.t) :=
  card <- select s (hand self) gs ;;
  Ok (Some card).

End Player.

(* ================================================================== *)
(** ** deck.py                                                         *)
(* ================================================================== *)

Module Deck.

(** The one attribute of a [Deck]: [self.cards]. *)
Definition t : Type := list Card.t.

Definition suits : list string := ["Hearts"; "Diamonds"; "Clubs"; "Spades"].

Definition ranks : list string :=
  [ "Ace"; "2"; "3"; "4"; "5"; "6"; "7"; "8"; "9"; "10"; "Jack"; "Queen";
    "King" ].

Definition jokers : list string := ["Big"; "Little"].

Definition append_card (name suit : string) (cards : t) : result t :=
  card <- Card.init name suit ;;
  Ok (cards ++ [card]).

(** [build]: appends to the cards the deck holds. *)
Definition build (cards : t) : result t :=
  cards <- foldM (fun cards suit =>
                    foldM (fun cards rank => append_card rank suit cards)
                          ranks cards)
                 suits cards ;;
  foldM (fun cards joker => append_card joker "Joker" cards) jokers cards.

(** [Deck.__init__] and [reset] *)
Definition init : result t := build [].

(** [draw]: the card drawn or [None], and the deck it leaves. *)
Definition draw (cards : t) : option Card.t * t :=
  if Z.of_nat (length cards) >? 0
  then match pop cards with
       | Ok (card, cards') => (Some card, cards')
       | Raise _ => (None, cards)
       end
  else (None, cards).

(** One turn of the loop of [deal]: the hand and the deck it leaves. *)
Definition deal_hand (draws : list nat) (cards : t) (ncards : Z)
  : result (list Card.t * t) :=
  if ncards >? 0 then
    hand <- sample draws cards ncards ;;
    cards <- foldM (fun cards next_card => remove Card.eq next_card cards)
                   hand cards ;;
    Ok (sort_desc Card.rank hand, cards)
  else Ok ([], cards).

(** [for _ in range(nhands)]; [draws] holds the draws of each call of
    [random.sample] in turn. *)
Fixpoint deal_loop (n : nat) (draws : list (list nat)) (cards : t)
  (ncards : Z) : result (list (list Card.t) * t) :=
  match n with
  | O => Ok ([], cards)
  | S n' =>
      x <- deal_hand (hd [] draws) cards ncards ;;
      y <- deal_loop n' (tl draws) (snd x) ncards ;;
      Ok (fst x :: fst y, snd y)
  end.

(** [deal]: the hands and the deck it leaves. *)
Definition deal (draws : list (list nat)) (cards : t) (nhands ncards : Z)
  : result (list (list Card.t) * t) :=
  deal_loop (Z.to_nat nhands) draws cards ncards.

End Deck.

(* ================================================================== *)
(** ** Vocabulary of the specification                                 *)
(* ================================================================== *)

(** The cards a program can hold: built by the constructor, then updated by
    [set_trump] any number of times. *)
Inductive constructed : Card.t -> Prop :=
| constructed_init (n s : string) (c : Card.t) :
    Card.init n s = Ok c -> constructed c
| constructed_set_trump (c c' : Card.t) (suit : option string) :
    constructed c -> Card.set_trump c suit = Ok c' -> constructed c'.

(** The base state of a card: as the constructor built it, or as
    [set_trump(None)] has just left it. *)
Definition base_state (c : Card.t) : Prop :=
  (exists n s, Card.init n s = Ok c)
  \/ (exists c0, Card.set_trump c0 None = Ok c).

(** The base identity of a card: its base symbol and its suit. *)
Definition same_identity (a b : Card.t) : Prop :=
  Card.base_symbol (Card.name a) = Card.base_symbol (Card.name b)
  /\ Card.suit a = Card.suit b.

(** The names a card can carry once the constructor has replaced a short
    name by its full name, and the five suits. *)
Definition full_names : list string :=
  [ "Ace"; "King"; "Queen"; "Jack"; "X"; "Big"; "Little"; "10"; "9"; "8";
    "7"; "6"; "5"; "4"; "3"; "2"; "N"; "_" ].

Definition suit_names : list string := map fst Card.suit_to_symbol.

(** The short name the constructor gives to a name and a suit. *)
Definition short_name_of (n s : string) : string :=
  match lookup String.eqb s Card.suit_to_symbol with
  | Some suit_symbol => String.append (Card.base_symbol n) suit_symbol
  | None => EmptyString
  end.

(** What the constructor fixes for good. *)
Definition well_formed (c : Card.t) : Prop :=
  In (Card.name c) full_names
  /\ In (Card.suit c) suit_names
  /\ Card.short_name c = short_name_of (Card.name c) (Card.suit c).

(** A card that counts: its points are not zero. *)
Definition has_points (c : Card.t) : bool := negb (Card.points c =? 0).

(** The trump cards of a hand that carry points, for a hand on which
    [set_trump suit] has run. *)
Definition point_trumps (suit : option string) (cards : Hand.t) : list Card.t :=
  filter (fun c => Card.is_trump c suit && has_points c) cards.

Definition zero_trumps (suit : option string) (cards : Hand.t) : list Card.t :=
  filter (fun c => Card.is_trump c suit && (Card.points c =? 0)) cards.

Definition non_trumps (suit : option string) (cards : Hand.t) : list Card.t :=
  filter (fun c => negb (Card.is_trump c suit)) cards.

(** Descending by a key, and descending by rank. *)
Definition desc_by {A : Type} (key : A -> Z) : list A -> Prop :=
  StronglySorted (fun x y => key y <= key x).

Definition descending (l : list Card.t) : Prop := desc_by Card.rank l.

(** The cards of a list whose rank is [k], in the order of the list. *)
Definition of_rank (k : Z) (l : list Card.t) : list Card.t :=
  filter (fun c => Card.rank c =? k) l.


(** A fresh player: no bid yet, the default strength table. *)
Definition new_player (position : option Z) (hand : Hand.t)
  (aggressiveness restraint : Q) : Player.t :=
  Player.Make position hand None None aggressiveness restraint
              Player.default_bid_strength.

(** Building a hand from names and suits. *)
Definition deal (l : list (string * string)) : result Hand.t :=
  mapM (fun p => Card.init (fst p) (snd p)) l.

(** All pairs of a name and a suit: the short names are equal exactly when
    the base symbols and the suits are. *)
Definition short_names_agree : bool :=
  forallb (fun n1 => forallb (fun s1 =>
  forallb (fun n2 => forallb (fun s2 =>
    Bool.eqb (String.eqb (short_name_of n1 s1) (short_name_of n2 s2))
             (String.eqb (Card.base_symbol n1) (Card.base_symbol n2)
              && String.eqb s1 s2))
    suit_names) full_names) suit_names) full_names.

(** Some cards: the Jack of Spades as built, as the main Jack (trump
    Spades) and as the off Jack (trump Clubs); the card built from the
    off-jack marker; the Jacks of Clubs and of Hearts. *)
Definition jack_of_spades : Card.t :=
  Card.Make "Jack" "Spades" "J♠" "J" 14 0 None.
Definition jack_as_main : Card.t :=
  Card.Make "Jack" "Spades" "J♠" "J" 14 1 (Some "Spades").
Definition jack_as_off : Card.t :=
  Card.Make "Jack" "Spades" "J♠" "X" 13 1 (Some "Clubs").
Definition x_of_hearts : Card.t :=
  Card.Make "X" "Hearts" "X♥" "X" 13 0 None.
Definition jack_of_clubs : Card.t :=
  Card.Make "Jack" "Clubs" "J♣" "J" 14 0 None.
Definition jack_of_hearts : Card.t :=
  Card.Make "Jack" "Hearts" "J♥" "J" 14 0 None.

(** The cards [deal] builds, or no card when a name or a suit is not
    valid. *)
Definition cards_of (l : list (string * string)) : Hand.t :=
  match deal l with
  | Ok h => h
  | Raise _ => []
  end.

(** The same cards with a trump suit set on each. *)
Definition cards_of_trump (suit : option string) (l : list (string * string))
  : Hand.t :=
  match Hand.set_trump (cards_of l) suit with
  | Ok h => h
  | Raise _ => []
  end.

(** The hand a discard leaves, or no card when it raises. *)
Definition discarded (cards : Hand.t) (suit : option string)
  (is_bidder : bool) : Hand.t :=
  match Hand.discard_non_trumps cards suit is_bidder with
  | Ok h => h
  | Raise _ => []
  end.

(** Eight point-valued trump cards under Spades and one King of Hearts. *)
Definition crowded_hand : Hand.t :=
  cards_of [ ("Ace", "Spades"); ("Jack", "Spades"); ("Jack", "Clubs");
             ("Big", "Joker"); ("Little", "Joker"); ("10", "Spades");
             ("3", "Spades"); ("2", "Spades"); ("King", "Hearts") ].

(** Under Spades: four point-valued trumps (Ace, Jack, off Jack, 3), three
    trumps without points (9, King, 5) and two cards that are not trump. *)
Definition nine_cards : Hand.t :=
  cards_of [ ("9", "Spades"); ("3", "Spades"); ("King", "Hearts");
             ("Jack", "Clubs"); ("5", "Spades"); ("Ace", "Spades");
             ("4", "Diamonds"); ("King", "Spades"); ("Jack", "Spades") ].

(** The parts of what [default_bid_strategy] returns. *)
Definition returned_bid (r : result (Z * Player.t)) : result Z :=
  x <- r ;; Ok (fst x).

Definition recorded_suit (r : result (Z * Player.t)) : result (option string) :=
  x <- r ;; Ok (Player.bidding_suit (snd x)).

(** The strength of the hand under each of the four suits, in the order the
    loop of [default_bid_strategy] takes them. *)
Definition strengths_of (p : Player.t) (suits : list string)
  : result (list (string * Q)) :=
  mapM (fun suit =>
          h <- Hand.set_trump (Player.hand p) (Some suit) ;;
          q <- Player.strength (Player.bid_strength p) h ;;
          Ok (suit, q))
       suits.

Definition suit_strengths (p : Player.t) : result (list (string * Q)) :=
  strengths_of p Player.suits.

(** The same list with every fraction in lowest terms. *)
Definition reduced (r : result (list (string * Q)))
  : result (list (string * Q)) :=
  l <- r ;; Ok (map (fun sq => (fst sq, Qred (snd sq))) l).


(** The loop of [default_bid_strategy] on the strengths alone: the bid value
    and the bidding suit it ends with. *)
Fixpoint choose (l : list (string * Q)) (bid_value : option Q)
  (bidding_suit : option string) : option Q * option string :=
  match l with
  | [] => (bid_value, bidding_suit)
  | (suit, suit_bid) :: l' =>
      if Player.replaces suit_bid bid_value
      then choose l' (Some suit_bid) (Some suit)
      else choose l' bid_value bidding_suit
  end.

(** Two hands hold the same cards, up to what [set_trump] changes. *)
Definition same_cards (h h' : Hand.t) : Prop :=
  Forall2 (fun c c' => Card.name c = Card.name c'
                       /\ Card.suit c = Card.suit c'
                       /\ Card.short_name c = Card.short_name c') h h'.

(** The computed bid of a player: the strength of the best suit, with
    aggressiveness and restraint applied, before truncation. *)
Definition computed_of (p : Player.t) (current_bidder : option Z) : result Q :=
  x <- foldM Player.evaluate_suit Player.suits (Player.set_bid p None None) ;;
  match Player.bid_value x with
  | Some best => Ok (Qred (Player.computed_bid x best current_bidder))
  | None => Raise TypeError
  end.


(** A table that gives the 2 no strength and charges one for a card that is
    not trump. *)
Definition wary_strength : list (Z * Q) :=
  (2, 0%Q) :: (0, (-1)%Q) :: Player.default_bid_strength.

(** Hands of Spades of strength 4.5 and 6.8 under the default table. *)
Definition hand_4_5 : Hand.t :=
  cards_of [ ("Ace", "Spades"); ("King", "Spades"); ("10", "Spades") ].

Definition hand_6_8 : Hand.t :=
  cards_of [ ("Ace", "Spades"); ("King", "Spades"); ("3", "Spades");
             ("2", "Spades"); ("4", "Spades"); ("5", "Spades");
             ("6", "Spades") ].

(** The call returns a card, and the card is one of [cards]. *)
Definition picks_from (cards : list Card.t) (r : result Card.t) : Prop :=
  exists card, r = Ok card /\ In card cards.

(** A player at seat 1 who holds the nine cards with Spades as trump, and a
    trick led with trump in which the Queen of Spades has been played and the
    next player has not played yet. *)
Definition spades_player : Player.t :=
  new_player (Some 1)
    (cards_of_trump (Some "Spades")
       [ ("9", "Spades"); ("3", "Spades"); ("King", "Hearts");
         ("Jack", "Clubs"); ("5", "Spades"); ("Ace", "Spades");
         ("4", "Diamonds"); ("King", "Spades"); ("Jack", "Spades") ])
    0 0.

Definition queen_led : Player.game_state :=
  Player.GameState (Some "Spades") true
    (map Some (cards_of_trump (Some "Spades") [("Queen", "Spades")])
     ++ [None]).

(* ================================================================== *)
(** ** Facts about the built-ins                                       *)
(* ================================================================== *)

Section PyFacts.

Context {A : Type}.

Lemma lookup_In {V : Type} (k : string) (d : list (string * V)) (v : V) :
  lookup String.eqb k d = Some v -> In (k, v) d.
Proof.
  induction d as [|[k' v'] d IH]; simpl; [discriminate|].
  destruct (String.eqb_spec k k') as [->|Hne]; intros H.
  - inversion H; subst; now left.
  - right; auto.
Qed.

Lemma mapM_length {B : Type} (f : A -> result B) (l : list A) (l' : list B) :
  mapM f l = Ok l' -> length l' = length l.
Proof.
  revert l'; induction l as [|x xs IH]; simpl; intros l' H.
  - inversion H; reflexivity.
  - destruct (f x); simpl in H; [|discriminate].
    destruct (mapM f xs); simpl in H; [|discriminate].
    inversion H; subst; simpl; f_equal; auto.
Qed.

Lemma mapM_Forall {B : Type} (f : A -> result B) (P : B -> Prop)
  (l : list A) (l' : list B) :
  (forall x y, In x l -> f x = Ok y -> P y) ->
  mapM f l = Ok l' -> Forall P l'.
Proof.
  revert l'; induction l as [|x xs IH]; simpl; intros l' HP H.
  - inversion H; constructor.
  - destruct (f x) eqn:Hx; simpl in H; [|discriminate].
    destruct (mapM f xs) eqn:Hxs; simpl in H; [|discriminate].
    inversion H; subst; constructor; eauto.
Qed.

Lemma mapM_total {B : Type} (f : A -> result B) (l : list A) :
  (forall x, In x l -> exists y, f x = Ok y) ->
  exists l', mapM f l = Ok l'.
Proof.
  induction l as [|x xs IH]; simpl; intros H.
  - eexists; reflexivity.
  - destruct (H x (or_introl eq_refl)) as [y ->]; simpl.
    destruct IH as [ys ->]; [intros; apply H; now right|].
    simpl; eexists; reflexivity.
Qed.

(** *** Slices *)

Lemma slice_to_nonneg (l : list A) (n : Z) :
  0 <= n -> slice_to l n = firstn (Z.to_nat n) l.
Proof.
  intros H; unfold slice_to.
  destruct (Z.ltb_spec n 0); [lia | reflexivity].
Qed.

Lemma firstn_incl (n : nat) (l : list A) : incl (firstn n l) l.
Proof.
  intros x Hx; rewrite <- (firstn_skipn n l).
  apply in_or_app; now left.
Qed.

Lemma slice_to_incl (l : list A) (n : Z) : incl (slice_to l n) l.
Proof.
  unfold slice_to; destruct (n <? 0); apply firstn_incl.
Qed.

Lemma slice_to_length (l : list A) (n : Z) :
  0 <= n -> Z.of_nat (length (slice_to l n)) = Z.min n (Z.of_nat (length l)).
Proof.
  intros H; rewrite slice_to_nonneg by assumption.
  rewrite length_firstn; lia.
Qed.

(** *** The stable descending sort *)

Variable key : A -> Z.

Lemma insert_desc_perm (x : A) (l : list A) :
  Permutation (insert_desc key x l) (x :: l).
Proof.
  induction l as [|y ys IH]; simpl; [reflexivity|].
  destruct (key x <? key y); [|reflexivity].
  rewrite IH; apply perm_swap.
Qed.

Lemma sort_desc_perm (l : list A) : Permutation (sort_desc key l) l.
Proof.
  induction l as [|x xs IH]; simpl; [reflexivity|].
  rewrite insert_desc_perm; now constructor.
Qed.

Lemma sort_desc_length (l : list A) : length (sort_desc key l) = length l.
Proof. apply Permutation_length, sort_desc_perm. Qed.

Lemma sort_desc_In (l : list A) (x : A) : In x (sort_desc key l) <-> In x l.
Proof.
  split; apply Permutation_in;
    [apply sort_desc_perm | symmetry; apply sort_desc_perm].
Qed.

Lemma insert_desc_sorted (x : A) (l : list A) :
  desc_by key l -> desc_by key (insert_desc key x l).
Proof.
  unfold desc_by; induction l as [|y ys IH]; simpl; intros Hs.
  - repeat constructor.
  - inversion Hs as [|? ? Hys Hall]; subst.
    destruct (Z.ltb_spec (key x) (key y)).
    + constructor; [auto|].
      rewrite Forall_forall in *; intros z Hz.
      apply (Permutation_in _ (insert_desc_perm x ys)) in Hz.
      destruct Hz as [<-|Hz]; [lia | auto].
    + constructor; [assumption|].
      constructor; [assumption|].
      rewrite Forall_forall in *; intros z Hz; specialize (Hall z Hz); lia.
Qed.

Lemma sort_desc_sorted (l : list A) : desc_by key (sort_desc key l).
Proof.
  induction l as [|x xs IH]; simpl; [constructor|].
  now apply insert_desc_sorted.
Qed.

(** Stability: among the elements of one key, the order of the list is
    kept. *)
Lemma insert_desc_stable (k : Z) (x : A) (l : list A) :
  desc_by key l ->
  filter (fun c => key c =? k) (insert_desc key x l)
  = filter (fun c => key c =? k) (x :: l).
Proof.
  unfold desc_by; induction l as [|y ys IH]; intros Hs; [reflexivity|].
  inversion Hs as [|? ? Hys Hall]; subst.
  cbn [insert_desc].
  destruct (Z.ltb_spec (key x) (key y)) as [Hlt|Hge]; [|reflexivity].
  cbn [filter]; rewrite (IH Hys); cbn [filter].
  destruct (Z.eqb_spec (key y) k), (Z.eqb_spec (key x) k);
    try reflexivity; lia.
Qed.

Lemma sort_desc_stable (k : Z) (l : list A) :
  filter (fun c => key c =? k) (sort_desc key l)
  = filter (fun c => key c =? k) l.
Proof.
  induction l as [|x xs IH]; [reflexivity|].
  cbn [sort_desc].
  rewrite insert_desc_stable by apply sort_desc_sorted.
  cbn [filter]; now rewrite IH.
Qed.

End PyFacts.

(* ================================================================== *)
(** ** Facts about cards                                               *)
(* ================================================================== *)

Section CardFacts.

Ltac each_member H :=
  cbn in H;
  repeat (destruct H as [H|H]; [try (inversion H; clear H; subst)|]);
  try contradiction.

Lemma ref_In (k : string) (e : Card.entry) :
  Card.ref k = Ok e -> In (k, e) Card.card_reference.
Proof.
  unfold Card.ref, getitem; intros H.
  destruct (lookup String.eqb k Card.card_reference) eqn:E; [|discriminate].
  inversion H; subst; now apply lookup_In.
Qed.

Lemma ref_points_nonneg (k : string) (e : Card.entry) :
  Card.ref k = Ok e -> 0 <= Card.e_points e.
Proof.
  intros H; apply ref_In in H.
  each_member H; cbn; lia.
Qed.

(** [set_trump] leaves the identity of the card alone. *)
Lemma set_trump_identity (c c' : Card.t) (s : option string) :
  Card.set_trump c s = Ok c' ->
  Card.name c' = Card.name c /\ Card.suit c' = Card.suit c
  /\ Card.short_name c' = Card.short_name c.
Proof.
  unfold Card.set_trump; intros H.
  destruct (Card.ref (Card.base_symbol (Card.name c))); cbn in H;
    [|discriminate].
  destruct s as [s|].
  - match type of H with context [Card.ref ?k] => destruct (Card.ref k) end;
      cbn in H; [|discriminate].
    inversion H; subst; cbn; auto.
  - inversion H; subst; cbn; auto.
Qed.

(** [set_trump] reads the identity of the card and nothing else. *)
Lemma set_trump_reads_identity (c1 c2 : Card.t) (s : option string) :
  Card.name c1 = Card.name c2 -> Card.suit c1 = Card.suit c2 ->
  Card.short_name c1 = Card.short_name c2 ->
  Card.set_trump c1 s = Card.set_trump c2 s.
Proof.
  destruct c1, c2; cbn; intros -> -> ->; reflexivity.
Qed.

Lemma set_trump_points_nonneg (c c' : Card.t) (s : option string) :
  Card.set_trump c s = Ok c' -> 0 <= Card.points c'.
Proof.
  unfold Card.set_trump; intros H.
  destruct (Card.ref (Card.base_symbol (Card.name c))); cbn in H;
    [|discriminate].
  destruct s as [s|].
  - match type of H with context [Card.ref ?k] =>
      destruct (Card.ref k) eqn:E end; cbn in H; [|discriminate].
    inversion H; subst; cbn. eapply ref_points_nonneg; eauto.
  - inversion H; subst; cbn; lia.
Qed.

(** What the constructor returns. *)
Lemma init_inv (n s : string) (c : Card.t) :
  Card.init n s = Ok c ->
  well_formed c
  /\ Card.symbol c = Card.base_symbol (Card.name c)
  /\ Card.ref (Card.base_symbol (Card.name c))
     = Ok (Card.Entry (Card.rank c)
             (match Card.ref (Card.base_symbol (Card.name c)) with
              | Ok e => Card.e_points e | Raise _ => 0 end)
             (match Card.ref (Card.base_symbol (Card.name c)) with
              | Ok e => Card.e_desc e | Raise _ => EmptyString end)
             (match Card.ref (Card.base_symbol (Card.name c)) with
              | Ok e => Card.e_fullname e | Raise _ => None end))
  /\ Card.points c = 0
  /\ Card.trump_suit c = None.
Proof.
  unfold Card.init; intros H.
  destruct (lookup String.eqb n Card.card_reference) as [e|] eqn:En;
    [|discriminate].
  destruct (lookup String.eqb s Card.suit_to_symbol) as [y|] eqn:Es;
    [|discriminate].
  apply lookup_In in En; apply lookup_In in Es.
  unfold well_formed.
  each_member En; each_member Es; cbn in H; inversion H; subst; cbn;
    repeat split; auto 25.
Qed.

Lemma constructed_well_formed (c : Card.t) : constructed c -> well_formed c.
Proof.
  induction 1 as [n s c H | c c' s _ IH H].
  - apply (init_inv _ _ _ H).
  - apply set_trump_identity in H as (Hn & Hs & Hsn).
    unfold well_formed in *; rewrite Hn, Hs, Hsn; assumption.
Qed.

Lemma base_symbol_known (n : string) :
  In n full_names -> exists e, Card.ref (Card.base_symbol n) = Ok e.
Proof.
  intros H; each_member H; eexists; reflexivity.
Qed.

(** The symbol a card takes under a trump suit is a key of the table as
    soon as its base symbol is one. *)
Lemma set_trump_total (c : Card.t) (s : option string) :
  In (Card.name c) full_names -> exists c', Card.set_trump c s = Ok c'.
Proof.
  intros H; destruct (base_symbol_known _ H) as [e He].
  unfold Card.set_trump; rewrite He; cbn [bind].
  destruct s as [s|]; [|eexists; reflexivity].
  unfold Card.get_trump_symbol; cbn [Card.name Card.symbol Card.suit].
  repeat match goal with
         | |- context [if ?b then _ else _] => destruct b
         end;
    rewrite ?He; cbn; eexists; reflexivity.
Qed.

Lemma constructed_set_trump_total (c : Card.t) (s : option string) :
  constructed c -> exists c', Card.set_trump c s = Ok c'.
Proof.
  intros H; apply set_trump_total.
  apply (constructed_well_formed _ H).
Qed.

(** Resetting a card gives back the card the constructor built. *)
Lemma reset_is_init (n s : string) (c c' : Card.t) :
  Card.init n s = Ok c ->
  Card.name c' = Card.name c -> Card.suit c' = Card.suit c ->
  Card.short_name c' = Card.short_name c ->
  Card.set_trump c' None = Ok c.
Proof.
  intros Hi Hn Hs Hsn.
  destruct (init_inv _ _ _ Hi) as (_ & Hsym & Hr & Hp & Ht).
  unfold Card.set_trump; rewrite Hn, Hs, Hsn, Hr; cbn.
  destruct c; cbn in *; subst; reflexivity.
Qed.

Lemma history_identity (history : list (option string)) (c c' : Card.t) :
  foldM Card.set_trump history c = Ok c' ->
  Card.name c' = Card.name c /\ Card.suit c' = Card.suit c
  /\ Card.short_name c' = Card.short_name c.
Proof.
  revert c; induction history as [|s history IH]; cbn; intros c H.
  - inversion H; auto.
  - destruct (Card.set_trump c s) as [c1|] eqn:E; cbn in H; [|discriminate].
    apply set_trump_identity in E as (Hn & Hs & Hsn).
    apply IH in H as (Hn' & Hs' & Hsn').
    rewrite Hn', Hs', Hsn'; auto.
Qed.

Lemma history_total (history : list (option string)) (c : Card.t) :
  In (Card.name c) full_names ->
  exists c', foldM Card.set_trump history c = Ok c'.
Proof.
  revert c; induction history as [|s history IH]; cbn; intros c H.
  - eexists; reflexivity.
  - destruct (set_trump_total c s H) as [c1 E]; rewrite E; cbn.
    apply IH. apply set_trump_identity in E as (-> & _); assumption.
Qed.

End CardFacts.

(* ================================================================== *)
(** ** Cards: comparison, trump membership, reset                      *)
(* ================================================================== *)

Section CardClaims.

Lemma short_names_agree_true : short_names_agree = true.
Proof. vm_compute; reflexivity. Qed.

Lemma short_name_of_inj (n1 s1 n2 s2 : string) :
  In n1 full_names -> In s1 suit_names ->
  In n2 full_names -> In s2 suit_names ->
  (short_name_of n1 s1 = short_name_of n2 s2
   <-> Card.base_symbol n1 = Card.base_symbol n2 /\ s1 = s2).
Proof.
  intros H1 H2 H3 H4.
  pose proof short_names_agree_true as H; unfold short_names_agree in H.
  rewrite forallb_forall in H; specialize (H _ H1).
  rewrite forallb_forall in H; specialize (H _ H2).
  rewrite forallb_forall in H; specialize (H _ H3).
  rewrite forallb_forall in H; specialize (H _ H4).
  apply Bool.eqb_prop in H.
  rewrite <- String.eqb_eq, H, andb_true_iff, !String.eqb_eq; reflexivity.
Qed.

Lemma eq_same_identity (a b : Card.t) :
  well_formed a -> well_formed b ->
  (Card.eq a b = true <-> same_identity a b).
Proof.
  intros (Ha1 & Ha2 & Ha3) (Hb1 & Hb2 & Hb3).
  unfold Card.eq, same_identity.
  rewrite String.eqb_eq, Ha3, Hb3.
  now apply short_name_of_inj.
Qed.

(** C2, as the code has it: [<] and [>] compare the current ranks; [==]
    holds exactly when the two cards have the same base symbol and the same
    suit, whatever their current ranks. *)
Theorem card_comparisons (a b : Card.t) :
  constructed a -> constructed b ->
  (Card.lt a b = true <-> Card.rank a < Card.rank b)
  /\ (Card.gt a b = true <-> Card.rank a > Card.rank b)
  /\ (Card.eq a b = true <-> same_identity a b).
Proof.
  intros Ha Hb; split; [|split].
  - unfold Card.lt; apply Z.ltb_lt.
  - unfold Card.gt; rewrite Z.gtb_ltb, Z.ltb_lt; lia.
  - apply eq_same_identity; now apply constructed_well_formed.
Qed.

Lemma constructed_jack_as_main : constructed jack_as_main.
Proof.
  apply (constructed_set_trump jack_of_spades _ (Some "Spades"));
    [apply (constructed_init "Jack" "Spades")|]; reflexivity.
Defined.

Lemma constructed_jack_as_off : constructed jack_as_off.
Proof.
  apply (constructed_set_trump jack_of_spades _ (Some "Clubs"));
    [apply (constructed_init "Jack" "Spades")|]; reflexivity.
Defined.

(** The main Jack and the off Jack made of one Jack of Spades: the off Jack
    is lower, and the two are equal. *)
Lemma card_comparisons_witness :
  (Card.lt jack_as_off jack_as_main = true
   <-> Card.rank jack_as_off < Card.rank jack_as_main)
  /\ (Card.gt jack_as_off jack_as_main = true
      <-> Card.rank jack_as_off > Card.rank jack_as_main)
  /\ (Card.eq jack_as_off jack_as_main = true
      <-> same_identity jack_as_off jack_as_main).
Proof.
  exact (card_comparisons jack_as_off jack_as_main
           constructed_jack_as_off constructed_jack_as_main).
Defined.

(** C2 as stated fails: one Jack of Spades, once under trump Spades and once
    under trump Clubs, has two ranks (14 and 13), and [==] holds all the
    same. *)
Lemma equal_cards_of_different_rank :
  Card.init "Jack" "Spades" = Ok jack_of_spades
  /\ Card.set_trump jack_of_spades (Some "Spades") = Ok jack_as_main
  /\ Card.set_trump jack_of_spades (Some "Clubs") = Ok jack_as_off
  /\ Card.eq jack_as_main jack_as_off = true
  /\ Card.rank jack_as_main = 14
  /\ Card.rank jack_as_off = 13.
Proof. repeat split. Qed.

Lemma pair_in_color_pairs (a b : string) :
  Card.pair_in (a, b) Card.color_pairs = true
  <-> (a = "Spades" /\ b = "Clubs") \/ (a = "Clubs" /\ b = "Spades")
      \/ (a = "Diamonds" /\ b = "Hearts") \/ (a = "Hearts" /\ b = "Diamonds").
Proof.
  unfold Card.pair_in, Card.color_pairs; cbn [existsb fst snd].
  rewrite !orb_true_iff, !andb_true_iff, !String.eqb_eq.
  intuition discriminate.
Qed.

Lemma is_trump_spec (c : Card.t) (q : string) :
  Card.is_trump c (Some q) = true
  <-> Card.suit c = q \/ Card.suit c = "Joker" \/ Card.symbol c = "X"
      \/ (Card.base_symbol (Card.name c) = "J"
          /\ Card.pair_in (Card.suit c, q) Card.color_pairs = true).
Proof.
  unfold Card.is_trump.
  destruct (String.eqb_spec (Card.suit c) q);
    destruct (String.eqb_spec (Card.suit c) "Joker");
    destruct (String.eqb_spec (Card.symbol c) "X");
    destruct (String.eqb_spec (Card.base_symbol (Card.name c)) "J");
    cbn [orb]; intuition congruence.
Qed.

(** C7, as the code has it: a card in its base state is trump for a queried
    suit exactly when its suit is the queried suit, or its suit is Joker, or
    its base symbol is the off-jack marker X, or it is a Jack whose suit is
    the colour partner of the queried suit (Spades with Clubs, Hearts with
    Diamonds); with no suit queried and no trump set it is not trump. *)
Theorem is_trump_base_state (c : Card.t) (q : string) :
  base_state c ->
  (Card.is_trump c (Some q) = true
   <-> Card.suit c = q
       \/ Card.suit c = "Joker"
       \/ Card.base_symbol (Card.name c) = "X"
       \/ (Card.base_symbol (Card.name c) = "J"
           /\ ((Card.suit c = "Spades" /\ q = "Clubs")
               \/ (Card.suit c = "Clubs" /\ q = "Spades")
               \/ (Card.suit c = "Diamonds" /\ q = "Hearts")
               \/ (Card.suit c = "Hearts" /\ q = "Diamonds"))))
  /\ Card.is_trump c None = false.
Proof.
  intros H.
  assert (Hb : Card.symbol c = Card.base_symbol (Card.name c)
               /\ Card.trump_suit c = None).
  { destruct H as [(n & s & H) | (c0 & H)].
    - destruct (init_inv _ _ _ H) as (_ & Hsym & _ & _ & Ht); auto.
    - unfold Card.set_trump in H.
      destruct (Card.ref (Card.base_symbol (Card.name c0)));
        cbn [bind] in H; [|discriminate].
      inversion H; subst; cbn; auto. }
  destruct Hb as [Hsym Ht]; split.
  - rewrite is_trump_spec, pair_in_color_pairs, Hsym; reflexivity.
  - unfold Card.is_trump; rewrite Ht; reflexivity.
Qed.

Lemma base_state_init (n s : string) (c : Card.t) :
  Card.init n s = Ok c -> base_state c.
Proof. intros H; left; eauto. Qed.

(** The Jack of Spades is trump under Clubs, the Jack of Clubs under Spades;
    the Jack of Hearts is not trump under Clubs; with no suit queried a fresh
    card is not trump. *)
Lemma is_trump_base_state_witness :
  Card.is_trump jack_of_spades (Some "Clubs") = true
  /\ Card.is_trump jack_of_clubs (Some "Spades") = true
  /\ (Card.is_trump jack_of_hearts (Some "Clubs") = true -> False)
  /\ Card.is_trump jack_of_spades None = false.
Proof.
  split; [|split; [|split]].
  - apply (proj2 (proj1 (is_trump_base_state jack_of_spades "Clubs"
                           (base_state_init "Jack" "Spades" _ eq_refl)))).
    right; right; right; split; [reflexivity|]; left; split; reflexivity.
  - apply (proj2 (proj1 (is_trump_base_state jack_of_clubs "Spades"
                           (base_state_init "Jack" "Clubs" _ eq_refl)))).
    right; right; right; split; [reflexivity|].
    right; left; split; reflexivity.
  - intros H.
    apply (proj1 (proj1 (is_trump_base_state jack_of_hearts "Clubs"
                           (base_state_init "Jack" "Hearts" _ eq_refl))))
      in H.
    cbn in H; intuition discriminate.
  - exact (proj2 (is_trump_base_state jack_of_spades "Clubs"
                    (base_state_init "Jack" "Spades" _ eq_refl))).
Defined.

(** C7 as stated fails: the card built from the name X with the suit Hearts
    is in its base state and is trump under Clubs, though its suit is neither
    Clubs nor Joker and it is not a Jack. *)
Lemma off_jack_marker_is_trump :
  Card.init "X" "Hearts" = Ok x_of_hearts
  /\ Card.is_trump x_of_hearts (Some "Clubs") = true
  /\ String.eqb (Card.suit x_of_hearts) "Clubs" = false
  /\ String.eqb (Card.suit x_of_hearts) "Joker" = false
  /\ String.eqb (Card.base_symbol (Card.name x_of_hearts)) "J" = false.
Proof. repeat split. Qed.

(** C6: whatever trump suits a card has been given since it was built,
    [set_trump(None)] gives back the card as built, with no points and no
    trump suit; and [set_trump] of any suit gives what it gives on the card
    as built, so the result depends on the name, the suit and the trump suit
    only. *)
Theorem set_trump_none_restores (n s : string) (c : Card.t)
  (history : list (option string)) :
  Card.init n s = Ok c ->
  exists c',
    foldM Card.set_trump history c = Ok c'
    /\ Card.set_trump c' None = Ok c
    /\ Card.points c = 0
    /\ Card.trump_suit c = None
    /\ (forall t, Card.set_trump c' t = Card.set_trump c t)
    /\ (forall t, exists r, Card.set_trump c' t = Ok r).
Proof.
  intros H.
  destruct (init_inv _ _ _ H) as ((Hn & _) & _ & _ & Hp & Ht).
  destruct (history_total history c Hn) as [c' Hc'].
  exists c'.
  destruct (history_identity _ _ _ Hc') as (En & Es & Esn).
  repeat split; auto.
  - eapply reset_is_init; eauto.
  - intros t; now apply set_trump_reads_identity.
  - intros t; apply set_trump_total; rewrite En; assumption.
Qed.

(** The Jack of Spades after trump Clubs, no trump, trump Spades. *)
Lemma set_trump_none_restores_witness :
  exists c',
    foldM Card.set_trump [Some "Clubs"; None; Some "Spades"] jack_of_spades
    = Ok c'
    /\ Card.set_trump c' None = Ok jack_of_spades
    /\ Card.points jack_of_spades = 0
    /\ Card.trump_suit jack_of_spades = None
    /\ (forall t, Card.set_trump c' t = Card.set_trump jack_of_spades t)
    /\ (forall t, exists r, Card.set_trump c' t = Ok r).
Proof.
  exact (set_trump_none_restores "Jack" "Spades" jack_of_spades
           [Some "Clubs"; None; Some "Spades"] eq_refl).
Defined.

End CardClaims.

(* ================================================================== *)
(** ** Hands: the discard                                              *)
(* ================================================================== *)

Section HandFacts.

Lemma deal_constructed (l : list (string * string)) (h : Hand.t) :
  deal l = Ok h -> Forall constructed h.
Proof.
  apply mapM_Forall; intros [n s] c _ H.
  now apply (constructed_init n s).
Qed.

Lemma hand_set_trump_total (cards : Hand.t) (suit : option string) :
  Forall constructed cards ->
  exists cards', Hand.set_trump cards suit = Ok cards'.
Proof.
  intros H; apply mapM_total; intros c Hc.
  rewrite Forall_forall in H.
  now apply constructed_set_trump_total, H.
Qed.

Lemma hand_set_trump_nonneg (cards cards' : Hand.t) (suit : option string) :
  Hand.set_trump cards suit = Ok cards' ->
  Forall (fun c => 0 <= Card.points c) cards'.
Proof.
  apply mapM_Forall; intros c c' _ H.
  eapply set_trump_points_nonneg; eauto.
Qed.

Lemma filter_and {A : Type} (p q : A -> bool) (l : list A) :
  filter q (filter p l) = filter (fun x => p x && q x) l.
Proof.
  induction l as [|x xs IH]; cbn; [reflexivity|].
  destruct (p x); cbn; [destruct (q x)|]; now rewrite IH.
Qed.

Lemma filter_same {A : Type} (p q : A -> bool) (l : list A) :
  Forall (fun x => p x = q x) l -> filter p l = filter q l.
Proof.
  induction 1 as [|x xs Hx _ IH]; cbn; [reflexivity|].
  now rewrite Hx, IH.
Qed.

Lemma filter_split_length {A : Type} (p q : A -> bool) (l : list A) :
  Forall (fun x => q x = negb (p x)) l ->
  (length (filter p l) + length (filter q l) = length l)%nat.
Proof.
  induction 1 as [|x xs Hx _ IH]; cbn; [reflexivity|].
  rewrite Hx; destruct (p x); cbn; lia.
Qed.

Section Trumps.

Variable suit : option string.
Variable cards : Hand.t.
Hypothesis nonneg : Forall (fun c => 0 <= Card.points c) cards.

Let trumps : Hand.t := filter (fun card => Card.is_trump card suit) cards.

Lemma trumps_nonneg : Forall (fun c => 0 <= Card.points c) trumps.
Proof.
  rewrite Forall_forall in *; intros c Hc.
  apply filter_In in Hc as [Hc _]; auto.
Qed.

Lemma point_cards_eq :
  filter (fun card => Card.points card >? 0) trumps = point_trumps suit cards.
Proof.
  unfold trumps, point_trumps; rewrite filter_and.
  apply filter_same.
  rewrite Forall_forall in *; intros c Hc; specialize (nonneg c Hc).
  unfold has_points; f_equal.
  rewrite Z.gtb_ltb.
  destruct (Z.ltb_spec 0 (Card.points c)), (Z.eqb_spec (Card.points c) 0);
    cbn; auto; lia.
Qed.

Lemma non_point_cards_eq :
  filter (fun card => Card.points card =? 0) trumps = zero_trumps suit cards.
Proof. unfold trumps, zero_trumps; now rewrite filter_and. Qed.

Lemma trumps_length :
  (length (point_trumps suit cards) + length (zero_trumps suit cards)
   = length trumps)%nat.
Proof.
  rewrite <- point_cards_eq, <- non_point_cards_eq.
  apply filter_split_length.
  pose proof trumps_nonneg as H.
  rewrite Forall_forall in *; intros c Hc; specialize (H c Hc).
  rewrite Z.gtb_ltb.
  destruct (Z.ltb_spec 0 (Card.points c)), (Z.eqb_spec (Card.points c) 0);
    cbn; auto; lia.
Qed.

(** The overflow rule, in the vocabulary of the specification. *)
Lemma trim_trumps :
  Hand.trim trumps
  = if Z.of_nat (length trumps) >? 6
    then point_trumps suit cards
         ++ slice_to (sort_desc Card.rank (zero_trumps suit cards))
                     (6 - Z.of_nat (length (point_trumps suit cards)))
    else trumps.
Proof.
  unfold Hand.trim; now rewrite point_cards_eq, non_point_cards_eq.
Qed.

Lemma trim_keeps_points : incl (point_trumps suit cards) (Hand.trim trumps).
Proof.
  rewrite trim_trumps.
  destruct (Z.of_nat (length trumps) >? 6).
  - apply incl_appl, incl_refl.
  - intros c Hc; unfold point_trumps in Hc; unfold trumps.
    apply filter_In in Hc as [Hc Ht]; apply filter_In; split; [assumption|].
    now apply andb_true_iff in Ht.
Qed.

(** The length of the hand after the overflow rule: above 6 exactly when
    more than 6 trump cards carry points. *)
Lemma trim_length_small :
  (length (point_trumps suit cards) <= 6)%nat ->
  length (Hand.trim trumps) = Nat.min 6 (length trumps).
Proof.
  intros H; rewrite trim_trumps; pose proof trumps_length as HT.
  rewrite Z.gtb_ltb; destruct (Z.ltb_spec 6 (Z.of_nat (length trumps))).
  - rewrite length_app, slice_to_nonneg, length_firstn, sort_desc_length
      by lia.
    lia.
  - lia.
Qed.

Lemma trim_length_large :
  (6 < length (point_trumps suit cards))%nat ->
  (6 < length (Hand.trim trumps))%nat.
Proof.
  intros H; rewrite trim_trumps; pose proof trumps_length as HT.
  rewrite Z.gtb_ltb; destruct (Z.ltb_spec 6 (Z.of_nat (length trumps))).
  - rewrite length_app; lia.
  - lia.
Qed.

End Trumps.

(** The padding rule. *)
Lemma pad_spec (is_bidder : bool) (saved trimmed : Hand.t) :
  Hand.pad is_bidder saved trimmed
  = trimmed ++ firstn (if is_bidder then 6 - length trimmed else 0) saved.
Proof.
  unfold Hand.pad; destruct is_bidder; cbn [andb].
  - destruct (Z.ltb_spec (Z.of_nat (length trimmed)) 6).
    + rewrite slice_to_nonneg by lia; do 2 f_equal; lia.
    + replace (6 - length trimmed)%nat with 0%nat by lia.
      now rewrite firstn_0, app_nil_r.
  - now rewrite firstn_0, app_nil_r.
Qed.

Lemma pad_length (is_bidder : bool) (saved trimmed : Hand.t) :
  (length trimmed <= length (Hand.pad is_bidder saved trimmed)
   <= Nat.max 6 (length trimmed))%nat.
Proof.
  rewrite pad_spec, length_app, length_firstn; destruct is_bidder; lia.
Qed.

Lemma pad_incl (is_bidder : bool) (saved trimmed : Hand.t) :
  incl trimmed (Hand.pad is_bidder saved trimmed).
Proof. rewrite pad_spec; apply incl_appl, incl_refl. Qed.

(** The discard, once the trump suit has been set on every card. *)
Lemma discard_unfold (cards cards' : Hand.t) (suit : option string)
  (is_bidder : bool) :
  Hand.set_trump cards suit = Ok cards' ->
  Hand.discard_non_trumps cards suit is_bidder
  = let final :=
      Hand.sort_by_rank
        (Hand.pad is_bidder
           (if is_bidder then non_trumps suit cards' else [])
           (Hand.trim (filter (fun card => Card.is_trump card suit) cards')))
    in if Z.of_nat (length final) >? 6 then Raise Hand.misdeal else Ok final.
Proof.
  intros H; unfold Hand.discard_non_trumps; rewrite H; reflexivity.
Qed.

Lemma desc_by_app {A : Type} (key : A -> Z) (l1 l2 : list A) :
  desc_by key (l1 ++ l2) ->
  forall x y, In x l1 -> In y l2 -> key y <= key x.
Proof.
  unfold desc_by; induction l1 as [|a l1 IH]; cbn; intros Hs x y Hx Hy;
    [contradiction|].
  inversion Hs as [|? ? Hs' Hall]; subst.
  destruct Hx as [<-|Hx]; [|eauto].
  rewrite Forall_forall in Hall; apply Hall, in_or_app; now right.
Qed.

End HandFacts.

Section HandClaims.

(** The length of the hand the discard ends with, before the last test. *)
Lemma final_length (cards' : Hand.t) (suit : option string)
  (is_bidder : bool) (saved : Hand.t) :
  Forall (fun c => 0 <= Card.points c) cards' ->
  let final :=
    Hand.sort_by_rank
      (Hand.pad is_bidder saved
         (Hand.trim (filter (fun card => Card.is_trump card suit) cards'))) in
  ((6 < length final)%nat <-> (6 < length (point_trumps suit cards'))%nat)
  /\ incl (point_trumps suit cards') final.
Proof.
  intros Hnn final; subst final; unfold Hand.sort_by_rank.
  rewrite sort_desc_length.
  set (trimmed := Hand.trim _).
  pose proof (pad_length is_bidder saved trimmed) as Hpad.
  split; [split; intros H|].
  - destruct (Nat.le_gt_cases (length (point_trumps suit cards')) 6)
      as [Hle|Hgt]; [|assumption].
    pose proof (trim_length_small suit cards' Hnn Hle) as Ht.
    fold trimmed in Ht; lia.
  - pose proof (trim_length_large suit cards' Hnn H) as Ht.
    fold trimmed in Ht; lia.
  - intros c Hc; apply sort_desc_In, pad_incl.
    now apply trim_keeps_points.
Qed.

(** C3: the discard raises the misdeal error exactly when more than 6 trump
    cards of the hand carry points; with at most 6 it returns, and every
    point-valued trump card is still in the hand. *)
Theorem misdeal_iff (cards : Hand.t) (suit : option string)
  (is_bidder : bool) :
  Forall constructed cards ->
  exists cards',
    Hand.set_trump cards suit = Ok cards'
    /\ (Hand.discard_non_trumps cards suit is_bidder = Raise Hand.misdeal
        <-> (6 < length (point_trumps suit cards'))%nat)
    /\ ((length (point_trumps suit cards') <= 6)%nat ->
        exists h,
          Hand.discard_non_trumps cards suit is_bidder = Ok h
          /\ incl (point_trumps suit cards') h).
Proof.
  intros Hc.
  destruct (hand_set_trump_total cards suit Hc) as [cards' Hs].
  exists cards'; split; [assumption|].
  rewrite (discard_unfold _ _ _ _ Hs); cbv zeta.
  pose proof (hand_set_trump_nonneg _ _ _ Hs) as Hnn.
  destruct (final_length cards' suit is_bidder
              (if is_bidder then non_trumps suit cards' else []) Hnn)
    as [Hlen Hincl].
  set (final := Hand.sort_by_rank _) in *.
  rewrite Z.gtb_ltb.
  destruct (Z.ltb_spec 6 (Z.of_nat (length final))) as [Hgt|Hle].
  - assert (Hp : (6 < length (point_trumps suit cards'))%nat)
      by (apply Hlen; lia).
    split; [split; intros _; [exact Hp | reflexivity]|].
    intros H; lia.
  - split; [split; [discriminate|]|].
    + intros H; apply Hlen in H; lia.
    + intros _; exists final; split; [reflexivity | assumption].
Qed.

Lemma cards_of_constructed (l : list (string * string)) :
  Forall constructed (cards_of l).
Proof.
  unfold cards_of; destruct (deal l) eqn:E; [|constructor].
  eapply deal_constructed; eauto.
Qed.

Lemma crowded_hand_constructed : Forall constructed crowded_hand.
Proof. apply cards_of_constructed. Qed.

(** Eight point-valued trump cards: a misdeal. *)
Lemma misdeal_iff_witness :
  exists cards',
    Hand.set_trump crowded_hand (Some "Spades") = Ok cards'
    /\ (Hand.discard_non_trumps crowded_hand (Some "Spades") true
        = Raise Hand.misdeal
        <-> (6 < length (point_trumps (Some "Spades") cards'))%nat)
    /\ ((length (point_trumps (Some "Spades") cards') <= 6)%nat ->
        exists h,
          Hand.discard_non_trumps crowded_hand (Some "Spades") true = Ok h
          /\ incl (point_trumps (Some "Spades") cards') h).
Proof.
  exact (misdeal_iff crowded_hand (Some "Spades") true
           crowded_hand_constructed).
Defined.

(** C8: from a hand of 4 point-valued trump cards, 3 trump cards without
    points and 2 cards that are not trump, the discard of a player who is not
    the bidder keeps the 4 point cards and the first 2 of the cards without
    points once these are sorted by descending rank (a stable sort: cards of
    one rank keep their order), so no card it drops outranks one it keeps;
    the hand is left with 6 cards, descending by rank. *)
Theorem discard_nine_cards (cards cards' : Hand.t) (suit : option string) :
  Hand.set_trump cards suit = Ok cards' ->
  length (point_trumps suit cards') = 4%nat ->
  length (zero_trumps suit cards') = 3%nat ->
  length (non_trumps suit cards') = 2%nat ->
  let sorted := sort_desc Card.rank (zero_trumps suit cards') in
  let kept := firstn 2 sorted in
  let dropped := skipn 2 sorted in
  Hand.discard_non_trumps cards suit false
  = Ok (Hand.sort_by_rank (point_trumps suit cards' ++ kept))
  /\ length cards = 9%nat
  /\ exists h,
      Hand.discard_non_trumps cards suit false = Ok h
      /\ Permutation h (point_trumps suit cards' ++ kept)
      /\ length h = 6%nat
      /\ descending h
      /\ length kept = 2%nat
      /\ Permutation (kept ++ dropped) (zero_trumps suit cards')
      /\ (forall x y, In x kept -> In y dropped -> Card.rank y <= Card.rank x)
      /\ (forall k, of_rank k (kept ++ dropped)
                    = of_rank k (zero_trumps suit cards')).
Proof.
  intros Hs HP HZ HN sorted kept dropped.
  pose proof (hand_set_trump_nonneg _ _ _ Hs) as Hnn.
  pose proof (trumps_length suit cards' Hnn) as HT.
  assert (Hkept : length kept = 2%nat).
  { subst kept sorted; rewrite length_firstn, sort_desc_length; lia. }
  assert (Hd : Hand.discard_non_trumps cards suit false
               = Ok (Hand.sort_by_rank (point_trumps suit cards' ++ kept))).
  { rewrite (discard_unfold _ _ _ _ Hs); cbv zeta.
    rewrite pad_spec, firstn_0, app_nil_r.
    rewrite (trim_trumps suit cards' Hnn).
    rewrite <- HT, HP, HZ; cbn [Nat.add Z.of_nat Pos.of_succ_nat Pos.succ
                                Z.gtb Z.compare Pos.compare Pos.compare_cont
                                Z.sub Z.add Z.opp Z.pos_sub Z.succ_double
                                Z.pred_double Z.double Pos.pred_double].
    rewrite slice_to_nonneg by lia.
    change (Z.to_nat 2) with 2%nat; fold sorted; fold kept.
    unfold Hand.sort_by_rank at 1; rewrite sort_desc_length, length_app.
    rewrite HP, Hkept; reflexivity. }
  split; [exact Hd|]. split.
  { apply mapM_length in Hs; rewrite <- Hs.
    rewrite <- (filter_split_length
                  (fun c => Card.is_trump c suit)
                  (fun c => negb (Card.is_trump c suit)) cards')
      by (apply Forall_forall; reflexivity).
    fold (non_trumps suit cards'); lia. }
  eexists; split; [exact Hd|].
  unfold Hand.sort_by_rank.
  split; [apply sort_desc_perm|].
  split; [rewrite sort_desc_length, length_app; lia|].
  split; [apply (sort_desc_sorted Card.rank)|].
  split; [assumption|].
  subst kept dropped; rewrite firstn_skipn.
  split; [apply sort_desc_perm|].
  split.
  - apply (desc_by_app Card.rank); rewrite firstn_skipn.
    apply sort_desc_sorted.
  - intros k; apply (sort_desc_stable Card.rank).
Qed.

Lemma nine_cards_set_trump :
  Hand.set_trump nine_cards (Some "Spades")
  = Ok (match Hand.set_trump nine_cards (Some "Spades") with
        | Ok h => h
        | Raise _ => []
        end).
Proof. reflexivity. Qed.

(** Under Spades: the Ace, the King, the Jack, the off Jack, the 9 and the 3
    stay; the 5 goes. *)
Lemma discard_nine_cards_witness :
  Hand.discard_non_trumps nine_cards (Some "Spades") false
  = Ok (cards_of_trump (Some "Spades")
          [ ("Ace", "Spades"); ("King", "Spades"); ("Jack", "Spades");
            ("Jack", "Clubs"); ("9", "Spades"); ("3", "Spades") ]).
Proof.
  exact (proj1 (discard_nine_cards nine_cards _ (Some "Spades")
                  nine_cards_set_trump eq_refl eq_refl eq_refl)).
Defined.

(** C9: a discard that returns leaves at most 6 cards.  The padding appends
    a prefix of the saved cards no longer than 6 minus the size of the hand,
    and a hand of at most 6 cards has at most 6 cards after it. *)
Theorem hand_size_ceiling (cards : Hand.t) (suit : option string)
  (is_bidder : bool) (h : Hand.t) (saved trimmed : Hand.t) :
  Hand.discard_non_trumps cards suit is_bidder = Ok h ->
  (length h <= 6)%nat
  /\ (exists k : nat,
        (k <= 6 - length trimmed)%nat
        /\ Hand.pad is_bidder saved trimmed = trimmed ++ firstn k saved)
  /\ ((length trimmed <= 6)%nat ->
      (length (Hand.pad is_bidder saved trimmed) <= 6)%nat).
Proof.
  intros H; split; [|split].
  - unfold Hand.discard_non_trumps in H.
    destruct (Hand.set_trump cards suit) as [cards'|]; cbn [bind] in H;
      [|discriminate].
    match type of H with
    | (if ?b then _ else _) = _ => destruct b eqn:E
    end; [discriminate|].
    inversion H; subst; clear H.
    rewrite Z.gtb_ltb in E; apply Z.ltb_ge in E; lia.
  - exists (if is_bidder then (6 - length trimmed)%nat else 0%nat).
    split; [destruct is_bidder; lia | apply pad_spec].
  - pose proof (pad_length is_bidder saved trimmed); lia.
Qed.

(** The bidder under Hearts: one trump card, the King of Hearts, padded with
    the first five of the eight other cards. *)
Lemma hand_size_ceiling_witness :
  let saved := non_trumps (Some "Hearts")
                 (cards_of_trump (Some "Hearts")
                    [ ("9", "Spades"); ("3", "Spades"); ("King", "Hearts");
                      ("Jack", "Clubs"); ("5", "Spades"); ("Ace", "Spades");
                      ("4", "Diamonds"); ("King", "Spades");
                      ("Jack", "Spades") ]) in
  let trimmed := cards_of_trump (Some "Hearts") [("King", "Hearts")] in
  (length (discarded nine_cards (Some "Hearts") true) <= 6)%nat
  /\ (exists k : nat,
        (k <= 6 - length trimmed)%nat
        /\ Hand.pad true saved trimmed = trimmed ++ firstn k saved)
  /\ ((length trimmed <= 6)%nat ->
      (length (Hand.pad true saved trimmed) <= 6)%nat).
Proof.
  exact (hand_size_ceiling nine_cards (Some "Hearts") true
           (discarded nine_cards (Some "Hearts") true) _ _ eq_refl).
Defined.

End HandClaims.

(* ================================================================== *)
(** ** Bidding                                                         *)
(* ================================================================== *)

Section BidFacts.


Lemma Qlt_bool_iff (x y : Q) : Player.Qlt_bool x y = true <-> (x < y)%Q.
Proof.
  unfold Player.Qlt_bool; rewrite negb_true_iff.
  rewrite <- not_true_iff_false, Qle_bool_iff.
  split; [apply Qnot_le_lt | apply Qlt_not_le].
Qed.







(** *** The call returns *)








(** *** The suit the loop records *)

Lemma mapM_ext {A B : Type} (f g : A -> result B) (l : list A) :
  (forall x, f x = g x) -> mapM f l = mapM g l.
Proof.
  intros H; induction l as [|x xs IH]; cbn [mapM]; [reflexivity|].
  now rewrite H, IH.
Qed.

Lemma hand_set_trump_same_cards (h h' : Hand.t) (suit : option string) :
  Hand.set_trump h suit = Ok h' -> same_cards h h'.
Proof.
  unfold Hand.set_trump, same_cards; revert h'.
  induction h as [|c cs IH]; cbn [mapM]; intros h' H.
  - inversion H; constructor.
  - destruct (Card.set_trump c suit) as [c'|] eqn:Ec; cbn [bind] in H;
      [|discriminate].
    destruct (mapM (fun card => Card.set_trump card suit) cs) as [cs'|];
      cbn [bind] in H; [|discriminate].
    inversion H; subst; constructor; [|auto].
    apply set_trump_identity in Ec as (-> & -> & ->); auto.
Qed.

Lemma same_cards_set_trump (h h' : Hand.t) (suit : option string) :
  same_cards h h' -> Hand.set_trump h' suit = Hand.set_trump h suit.
Proof.
  unfold Hand.set_trump, same_cards.
  induction 1 as [|c c' cs cs' (Hn & Hs & Hsn) _ IH]; cbn [mapM];
    [reflexivity|].
  now rewrite IH, (set_trump_reads_identity c c' suit Hn Hs Hsn).
Qed.

(** The loop over the suits ends with what [choose] computes from the
    strengths of the hand under each suit. *)
Lemma loop_choose (l : list string) (p x : Player.t) :
  foldM Player.evaluate_suit l p = Ok x ->
  exists strengths,
    strengths_of p l = Ok strengths
    /\ (Player.bid_value x, Player.bidding_suit x)
       = choose strengths (Player.bid_value p) (Player.bidding_suit p).
Proof.
  revert p; induction l as [|suit l IH]; intros p H; cbn [foldM] in H.
  - inversion H; subst; exists []; split; reflexivity.
  - unfold Player.evaluate_suit in H.
    destruct (Hand.set_trump (Player.hand p) (Some suit)) as [h|] eqn:Eh;
      cbn [bind Player.set_hand Player.bid_strength Player.hand
           Player.bid_value] in H; [|discriminate].
    destruct (Player.strength (Player.bid_strength p) h) as [q|] eqn:Eq;
      cbn [bind] in H; [|discriminate].
    assert (Hl : forall p1,
               Player.hand p1 = h ->
               Player.bid_strength p1 = Player.bid_strength p ->
               strengths_of p1 l = strengths_of p l).
    { intros p1 E1 E2; unfold strengths_of; apply mapM_ext; intros s.
      rewrite E1, E2.
      now rewrite (same_cards_set_trump _ _ (Some s)
                     (hand_set_trump_same_cards _ _ _ Eh)). }
    unfold strengths_of at 1; cbn [mapM]; rewrite Eh; cbn [bind].
    rewrite Eq; cbn [bind]; fold (strengths_of p l).
    destruct (Player.replaces q (Player.bid_value p)) eqn:Er; cbn [bind] in H;
      apply IH in H as (strengths & Hs & Hc);
      rewrite Hl in Hs by reflexivity;
      rewrite Hs; cbn [bind]; eexists; split; try reflexivity;
      cbn [choose]; rewrite Er; exact Hc.
Qed.




End BidFacts.

Section BidClaims.



(** C4: the last steps on the three computed bids of the specification, and
    the same three bids from hands: Spades of strength 4.5 against no bid
    pass; Spades of strength 6.8 against a bid of 5 bid 6; a computed bid of
    7.9 (strength 6.8, aggressiveness 1.1) against no bid opens at 6. *)
Theorem final_bid_examples :
  Player.final_bid 4.5 0 = 0
  /\ Player.final_bid 6.8 5 = 6
  /\ Player.final_bid 7.9 0 = 6
  /\ computed_of (new_player (Some 0) hand_4_5 0 0) None = Ok (Qred 4.5)
  /\ returned_bid (Player.default_bid_strategy
                     (new_player (Some 0) hand_4_5 0 0) 0 None) = Ok 0
  /\ computed_of (new_player (Some 0) hand_6_8 0 0) None = Ok (Qred 6.8)
  /\ returned_bid (Player.default_bid_strategy
                     (new_player (Some 0) hand_6_8 0 0) 5 None) = Ok 6
  /\ computed_of (new_player (Some 0) hand_6_8 1.1 0) None = Ok (Qred 7.9)
  /\ returned_bid (Player.default_bid_strategy
                     (new_player (Some 0) hand_6_8 1.1 0) 0 None) = Ok 6.
Proof. repeat split; vm_compute; reflexivity. Qed.

(** C1 fails on the code.  With no card in hand every suit has strength 0:
    Spades is the first suit of the greatest strength, and the suit recorded
    is Diamonds, because the test [not self.bid_value] holds for an incumbent
    of strength 0 as it does for no incumbent.  With the 2 of Spades and a
    table that gives the 2 no strength and -1 to a card that is not trump,
    Spades has strength 0 and the other suits -1, and the suit recorded is
    Hearts. *)
Theorem bidding_suit_after_zero_strength :
  reduced (suit_strengths (new_player (Some 0) [] 0 0))
  = Ok [("Spades", 0%Q); ("Hearts", 0%Q); ("Clubs", 0%Q); ("Diamonds", 0%Q)]
  /\ recorded_suit (Player.default_bid_strategy
                      (new_player (Some 0) [] 0 0) 0 None)
     = Ok (Some "Diamonds")
  /\ reduced
       (suit_strengths
          (Player.Make (Some 0) (cards_of [("2", "Spades")]) None None 0 0
                       wary_strength))
     = Ok [("Spades", 0%Q); ("Hearts", (-1)%Q); ("Clubs", (-1)%Q);
           ("Diamonds", (-1)%Q)]
  /\ recorded_suit
       (Player.default_bid_strategy
          (Player.Make (Some 0) (cards_of [("2", "Spades")]) None None 0 0
                       wary_strength) 0 None)
     = Ok (Some "Hearts").
Proof. repeat split; vm_compute; reflexivity. Qed.

End BidClaims.

(* ================================================================== *)
(** ** Card play                                                       *)
(* ================================================================== *)

Section PlayFacts.

Lemma min_from_In {A K : Type} (ltb : K -> K -> bool) (key : A -> K)
  (best : A) (l : list A) :
  In (min_from ltb key best l) (best :: l).
Proof.
  revert best; induction l as [|x xs IH]; intros best; cbn [min_from].
  - now left.
  - destruct (IH (if ltb (key x) (key best) then x else best)) as [H|H].
    + rewrite <- H; destruct (ltb (key x) (key best));
        [right; now left | now left].
    + right; now right.
Qed.

Lemma max_from_In {A K : Type} (ltb : K -> K -> bool) (key : A -> K)
  (best : A) (l : list A) :
  In (max_from ltb key best l) (best :: l).
Proof.
  revert best; induction l as [|x xs IH]; intros best; cbn [max_from].
  - now left.
  - destruct (IH (if ltb (key best) (key x) then x else best)) as [H|H].
    + rewrite <- H; destruct (ltb (key best) (key x));
        [right; now left | now left].
    + right; now right.
Qed.

Variable cards : list Card.t.

Lemma picks_min {K : Type} (ltb : K -> K -> bool) (key : Card.t -> K)
  (l : list Card.t) :
  incl l cards -> Player.nonempty l = true ->
  picks_from cards (min_by ltb key l).
Proof.
  intros Hsub Hne; destruct l as [|x xs]; [discriminate|].
  eexists; split; [reflexivity|]; apply Hsub, min_from_In.
Qed.

Lemma picks_max {K : Type} (ltb : K -> K -> bool) (key : Card.t -> K)
  (l : list Card.t) :
  incl l cards -> Player.nonempty l = true ->
  picks_from cards (max_by ltb key l).
Proof.
  intros Hsub Hne; destruct l as [|x xs]; [discriminate|].
  eexists; split; [reflexivity|]; apply Hsub, max_from_In.
Qed.

Lemma picks_first (l : list Card.t) :
  incl l cards -> Player.nonempty l = true -> picks_from cards (first l).
Proof.
  intros Hsub Hne; destruct l as [|x xs]; [discriminate|].
  eexists; split; [reflexivity|]; apply Hsub; now left.
Qed.

Lemma picks_choice (r : nat) (l : list Card.t) :
  incl l cards -> Player.nonempty l = true -> picks_from cards (choice r l).
Proof.
  intros Hsub Hne; unfold choice.
  destruct (nth_error l (r mod length l)) as [x|] eqn:E.
  - eexists; split; [reflexivity|]; eapply Hsub, nth_error_In; eauto.
  - apply nth_error_None in E.
    destruct l as [|x xs]; [discriminate|].
    pose proof (Nat.mod_upper_bound r (length (x :: xs))) as Hb.
    cbn [length] in *; lia.
Qed.

Hypothesis held : Player.nonempty cards = true.

Ltac sub :=
  unfold Player.trump_cards_of;
  repeat first [ apply incl_refl
               | eapply incl_tran; [apply incl_filter|] ].

Ltac leaf :=
  unfold Player.min_rank, Player.max_rank;
  first [ apply picks_min | apply picks_max | apply picks_first
        | apply picks_choice ];
  [sub | assumption].

Ltac branch :=
  repeat match goal with
         | |- picks_from _ (if Player.trumps_led ?g && _ then _ else _) =>
             destruct (Player.trumps_led g); cbn [andb negb]
         | |- picks_from _ (if _ && negb (Player.trumps_led ?g)
                            then _ else _) =>
             destruct (Player.trumps_led g);
             rewrite ?andb_false_r, ?andb_true_r; cbn [negb]
         | |- picks_from _ (if Player.nonempty ?l then _ else _) =>
             destruct (Player.nonempty l) eqn:?
         | |- picks_from _ (if false then _ else _) => cbv iota
         end.

Lemma play_random_picks (r : nat) (gs : Player.game_state) :
  picks_from cards (Player.play_random r cards gs).
Proof. unfold Player.play_random; cbv zeta; branch; leaf. Qed.

Lemma play_highest_picks (gs : Player.game_state) :
  picks_from cards (Player.play_highest cards gs).
Proof. unfold Player.play_highest; leaf. Qed.

Lemma play_lowest_picks (gs : Player.game_state) :
  picks_from cards (Player.play_lowest cards gs).
Proof. unfold Player.play_lowest; cbv zeta; branch; leaf. Qed.

Lemma play_highest_no_point_picks (gs : Player.game_state) :
  picks_from cards (Player.play_highest_no_point cards gs).
Proof. unfold Player.play_highest_no_point; cbv zeta; branch; leaf. Qed.

Lemma lowest_trump_or_card_picks (gs : Player.game_state) :
  picks_from cards (Player.lowest_trump_or_card cards gs).
Proof. unfold Player.lowest_trump_or_card; cbv zeta; branch; leaf. Qed.

Lemma play_highest_points_picks (gs : Player.game_state) :
  picks_from cards (Player.play_highest_points cards gs).
Proof.
  unfold Player.play_highest_points; cbv zeta.
  destruct (filter (fun card => Card.points card >? 0) cards)
    as [|p ps] eqn:E; [apply lowest_trump_or_card_picks|].
  assert (Hsub : incl (p :: ps) cards) by (rewrite <- E; apply incl_filter).
  branch; try apply lowest_trump_or_card_picks;
    unfold Player.min_rank; apply picks_min; try assumption;
    (eapply incl_tran; [|exact Hsub]); sub.
Qed.

Lemma play_lowest_no_point_picks (gs : Player.game_state) :
  picks_from cards (Player.play_lowest_no_point cards gs).
Proof. unfold Player.play_lowest_no_point; cbv zeta; branch; leaf. Qed.

Lemma play_just_higher_picks (gs : Player.game_state) :
  picks_from cards (Player.play_just_higher cards gs).
Proof.
  unfold Player.play_just_higher; cbv zeta; branch;
    [leaf | apply play_lowest_no_point_picks].
Qed.

Lemma play_single_point_picks (gs : Player.game_state) :
  picks_from cards (Player.play_single_point cards gs).
Proof. unfold Player.play_single_point; cbv zeta; branch; leaf. Qed.

Lemma play_off_picks (gs : Player.game_state) :
  picks_from cards (Player.play_off cards gs).
Proof. unfold Player.play_off; cbv zeta; branch; leaf. Qed.

Lemma play_save_point_picks (gs : Player.game_state) :
  picks_from cards (Player.play_save_point cards gs).
Proof.
  unfold Player.play_save_point; cbv zeta; branch;
    [leaf | apply play_off_picks].
Qed.

Lemma select_picks (s : Player.strategy) (gs : Player.game_state) :
  picks_from cards (Player.select s cards gs).
Proof.
  destruct s; cbn [Player.select];
    auto using play_random_picks, play_highest_picks, play_lowest_picks,
      play_highest_no_point_picks, play_highest_points_picks,
      play_just_higher_picks, play_lowest_no_point_picks,
      play_single_point_picks, play_save_point_picks, play_off_picks.
Qed.

End PlayFacts.

Section PlayClaims.

(** C10: each of the ten strategies, on a hand that is not empty and in any
    context, returns one card, the card stands at some position of the hand,
    and the player (the hand with it) is left as it was. *)
Theorem strategy_selects_held_card (s : Player.strategy) (self : Player.t)
  (gs : Player.game_state) :
  Player.hand self <> [] ->
  exists (card : Card.t) (i : nat),
    Player.play s self gs = Ok (card, self)
    /\ nth_error (Player.hand self) i = Some card.
Proof.
  intros H.
  assert (Hne : Player.nonempty (Player.hand self) = true)
    by (destruct (Player.hand self); [contradiction | reflexivity]).
  destruct (select_picks (Player.hand self) Hne s gs) as (card & Hc & Hin).
  apply In_nth_error in Hin as [i Hi].
  exists card, i; split; [|assumption].
  unfold Player.play; rewrite Hc; reflexivity.
Qed.

(** Against the Queen of Spades, "just higher" plays the King of Spades,
    the eighth card of the hand. *)
Lemma strategy_selects_held_card_witness :
  exists (card : Card.t) (i : nat),
    Player.play Player.JustHigher spades_player queen_led
    = Ok (card, spades_player)
    /\ nth_error (Player.hand spades_player) i = Some card.
Proof.
  apply (strategy_selects_held_card Player.JustHigher spades_player queen_led).
  discriminate.
Defined.

End PlayClaims.

(* ================================================================== *)
(** ** More about cards                                                *)
(* ================================================================== *)

(** The keys of the two tables of [Card]. *)
Definition card_names : list string := map fst Card.card_reference.

(** An integer is a rank of the table: 0, or 2 to 17. *)
Definition is_rank (r : Z) : Prop := r = 0 \/ 2 <= r <= 17.

(** An integer is a point value of the table. *)
Definition is_points (p : Z) : Prop := p = 0 \/ p = 1 \/ p = 3.

(** The Jack of the other suit of the colour of [t]. *)
Definition off_jack (c : Card.t) (t : string) : bool :=
  String.eqb (Card.base_symbol (Card.name c)) "J"
  && Card.pair_in (Card.suit c, t) Card.color_pairs.

Section CardExtras.

Ltac each_case H :=
  cbn in H;
  repeat (destruct H as [H|H]; [try (inversion H; clear H; subst)|]);
  try contradiction.

Lemma lookup_None {V : Type} (k : string) (d : list (string * V)) :
  lookup String.eqb k d = None <-> ~ In k (map fst d).
Proof.
  induction d as [|[k' v] d IH]; cbn [lookup map fst In]; [tauto|].
  destruct (String.eqb_spec k k') as [->|Hne].
  - split; [discriminate | intros H; exfalso; apply H; now left].
  - rewrite IH; split; [intros H [E|E]; [congruence | tauto]|tauto].
Qed.

(** X1: the constructor checks the name, then the suit, each against its table:
    it returns a card when both are keys, and raises [ValueError] naming the
    name, or else the suit, that is not. *)
Theorem init_validates (n s : string) :
  match Card.init n s with
  | Ok c =>
      In n card_names /\ In s suit_names /\ Card.suit c = s
      /\ Card.points c = 0 /\ Card.trump_suit c = None
  | Raise e =>
      (~ In n card_names
       /\ e = ValueError (String.append "Invalid card name: " n))
      \/ (In n card_names /\ ~ In s suit_names
          /\ e = ValueError (String.append "Invalid suit: " s))
  end.
Proof.
  unfold Card.init.
  destruct (lookup String.eqb n Card.card_reference) as [e|] eqn:En.
  - assert (Hn : In n card_names).
    { apply lookup_In in En; unfold card_names.
      change n with (fst (n, e)); now apply in_map. }
    destruct (lookup String.eqb s Card.suit_to_symbol) as [y|] eqn:Es.
    + assert (Hs : In s suit_names).
      { apply lookup_In in Es; unfold suit_names.
        change s with (fst (s, y)); now apply in_map. }
      apply lookup_In in En; clear Es.
      each_case En; cbn; auto.
    + right; apply lookup_None in Es; auto.
  - left; apply lookup_None in En; auto.
Qed.

(** X2: a short name of the table and the full name it stands for build the
    same card. *)
Theorem init_short_name (k f s : string) (e : Card.entry) :
  In (k, e) Card.card_reference -> Card.e_fullname e = Some f ->
  Card.init k s = Card.init f s.
Proof.
  intros H Hf; each_case H; cbn in Hf; try discriminate;
    inversion Hf; subst; reflexivity.
Qed.

Lemma init_short_name_witness :
  Card.init "A" "Spades" = Card.init "Ace" "Spades".
Proof.
  apply (init_short_name "A" "Ace" "Spades" (Card.Entry 17 1 "Ace" (Some "Ace")));
    [right; left|]; reflexivity.
Defined.

Lemma ref_ranges (k : string) (e : Card.entry) :
  Card.ref k = Ok e -> is_rank (Card.e_rank e) /\ is_points (Card.e_points e).
Proof.
  intros H; apply ref_In in H; unfold is_rank, is_points.
  each_case H; cbn; split; auto; right; lia.
Qed.

(** What [set_trump] of a suit leaves, read off its definition. *)
Lemma set_trump_some_inv (c c' : Card.t) (t : string) :
  Card.set_trump c (Some t) = Ok c' ->
  exists e0 e1,
    Card.ref (Card.base_symbol (Card.name c)) = Ok e0
    /\ Card.ref (Card.symbol c') = Ok e1
    /\ Card.symbol c'
       = Card.get_trump_symbol
           (Card.Make (Card.name c) (Card.suit c) (Card.short_name c)
                      (Card.base_symbol (Card.name c)) (Card.e_rank e0) 0 None)
           t
    /\ Card.name c' = Card.name c /\ Card.suit c' = Card.suit c
    /\ Card.rank c' = Card.e_rank e1 /\ Card.points c' = Card.e_points e1
    /\ Card.trump_suit c' = Some t.
Proof.
  unfold Card.set_trump; intros H.
  destruct (Card.ref (Card.base_symbol (Card.name c))) as [e0|] eqn:E0;
    cbn [bind] in H; [|discriminate].
  match type of H with context [Card.ref ?k] =>
    destruct (Card.ref k) as [e1|] eqn:E1 end; cbn [bind] in H;
    [|discriminate].
  inversion H; subst; clear H; cbn [Card.symbol Card.name Card.suit
                                   Card.rank Card.points Card.trump_suit].
  exists e0, e1; repeat split; auto.
Qed.

Lemma set_trump_none_inv (c c' : Card.t) :
  Card.set_trump c None = Ok c' ->
  exists e0,
    Card.ref (Card.base_symbol (Card.name c)) = Ok e0
    /\ c' = Card.Make (Card.name c) (Card.suit c) (Card.short_name c)
                      (Card.base_symbol (Card.name c)) (Card.e_rank e0) 0 None.
Proof.
  unfold Card.set_trump; intros H.
  destruct (Card.ref (Card.base_symbol (Card.name c))) as [e0|] eqn:E0;
    cbn [bind] in H; [|discriminate].
  inversion H; subst; eauto.
Qed.

Lemma set_trump_rank_cases (c c0 c' : Card.t) (t : string) :
  Card.set_trump c None = Ok c0 ->
  Card.set_trump c (Some t) = Ok c' ->
  Card.is_trump c' None = Card.is_trump c0 (Some t)
  /\ Card.is_trump c' (Some t) = Card.is_trump c0 (Some t)
  /\ (if Card.is_trump c0 (Some t) then
        if off_jack c0 t
        then Card.symbol c' = "X" /\ Card.rank c' = 13 /\ Card.points c' = 1
        else Card.symbol c' = Card.symbol c0 /\ Card.rank c' = Card.rank c0
      else Card.symbol c' = "N" /\ Card.rank c' = 0 /\ Card.points c' = 0).
Proof.
  intros H0 H.
  apply set_trump_none_inv in H0 as (e0 & E0 & ->).
  apply set_trump_some_inv in H
    as (e0' & e1 & E0' & E1 & Hsym & Hn & Hs & Hr & Hp & Ht).
  rewrite E0 in E0'; inversion E0'; subst e0'; clear E0'.
  set (c0 := Card.Make _ _ _ _ _ _ _) in *.
  assert (Hi : forall b, Card.is_trump c' b
                         = match b with
                           | Some q => Card.is_trump c' (Some q)
                           | None => Card.is_trump c' (Some t)
                           end).
  { intros [q|]; [reflexivity|]; unfold Card.is_trump; now rewrite Ht. }
  rewrite (Hi None).
  assert (Hk : Card.is_trump c' (Some t) = Card.is_trump c0 (Some t)
               /\ (if Card.is_trump c0 (Some t) then
                     if off_jack c0 t
                     then Card.symbol c' = "X"
                     else Card.symbol c' = Card.symbol c0
                   else Card.symbol c' = "N")).
  { unfold Card.get_trump_symbol in Hsym; unfold off_jack.
    unfold Card.is_trump at 1; unfold Card.is_trump in Hsym |- *.
    subst c0; cbn [Card.name Card.suit Card.symbol Card.trump_suit] in *.
    rewrite Hn, Hs, Hsym.
    destruct (String.eqb (Card.suit c) t || String.eqb (Card.suit c) "Joker");
      [ destruct (String.eqb (Card.base_symbol (Card.name c)) "J");
        cbn [andb];
        [ destruct (Card.pair_in (Card.suit c, t) Card.color_pairs) |];
        auto |].
    destruct (String.eqb_spec (Card.base_symbol (Card.name c)) "X") as [Ex|Ex].
    - rewrite Ex; cbn; auto.
    - destruct (String.eqb (Card.base_symbol (Card.name c)) "J"); cbn [andb].
      + destruct (Card.pair_in (Card.suit c, t) Card.color_pairs); cbn; auto.
      + cbn; auto. }
  destruct Hk as [Hk1 Hk2]; repeat split; try assumption.
  destruct (Card.is_trump c0 (Some t)).
  - destruct (off_jack c0 t).
    + rewrite Hk2 in E1; cbn in E1; inversion E1; subst e1.
      rewrite Hr, Hp; cbn; auto.
    + split; [assumption|].
      rewrite Hk2 in E1; subst c0; cbn [Card.symbol Card.rank] in *.
      rewrite E0 in E1; inversion E1; subst; assumption.
  - rewrite Hk2 in E1; cbn in E1; inversion E1; subst e1.
    rewrite Hr, Hp; cbn; auto.
Qed.

(** X3: under a trump suit a card that is not trump becomes the marker N, of
    rank 0 and no points; the Jack of the other suit of the colour becomes
    the off Jack X, of rank 13 and one point; every other trump card keeps
    its base symbol and its base rank.  [is_trump] with no argument then
    answers for the trump suit that was set. *)
Theorem set_trump_rank (c c0 c' : Card.t) (t : string) :
  Card.set_trump c None = Ok c0 ->
  Card.set_trump c (Some t) = Ok c' ->
  Card.is_trump c' None = Card.is_trump c0 (Some t)
  /\ Card.is_trump c' (Some t) = Card.is_trump c0 (Some t)
  /\ (if Card.is_trump c0 (Some t) then
        if off_jack c0 t
        then Card.symbol c' = "X" /\ Card.rank c' = 13 /\ Card.points c' = 1
        else Card.symbol c' = Card.symbol c0 /\ Card.rank c' = Card.rank c0
      else Card.symbol c' = "N" /\ Card.rank c' = 0 /\ Card.points c' = 0).
Proof. exact (set_trump_rank_cases c c0 c' t). Qed.

(** The Jack of Clubs under Spades. *)
Lemma set_trump_rank_witness :
  Card.is_trump (Card.Make "Jack" "Clubs" "J♣" "X" 13 1 (Some "Spades")) None
  = Card.is_trump jack_of_clubs (Some "Spades")
  /\ Card.is_trump (Card.Make "Jack" "Clubs" "J♣" "X" 13 1 (Some "Spades"))
                   (Some "Spades")
     = Card.is_trump jack_of_clubs (Some "Spades")
  /\ (if Card.is_trump jack_of_clubs (Some "Spades") then
        if off_jack jack_of_clubs "Spades"
        then Card.symbol (Card.Make "Jack" "Clubs" "J♣" "X" 13 1
                                    (Some "Spades")) = "X"
             /\ Card.rank (Card.Make "Jack" "Clubs" "J♣" "X" 13 1
                                     (Some "Spades")) = 13
             /\ Card.points (Card.Make "Jack" "Clubs" "J♣" "X" 13 1
                                       (Some "Spades")) = 1
        else Card.symbol (Card.Make "Jack" "Clubs" "J♣" "X" 13 1
                                    (Some "Spades"))
             = Card.symbol jack_of_clubs
             /\ Card.rank (Card.Make "Jack" "Clubs" "J♣" "X" 13 1
                                     (Some "Spades"))
                = Card.rank jack_of_clubs
      else Card.symbol (Card.Make "Jack" "Clubs" "J♣" "X" 13 1
                                  (Some "Spades")) = "N"
           /\ Card.rank (Card.Make "Jack" "Clubs" "J♣" "X" 13 1
                                   (Some "Spades")) = 0
           /\ Card.points (Card.Make "Jack" "Clubs" "J♣" "X" 13 1
                                     (Some "Spades")) = 0).
Proof.
  exact (set_trump_rank jack_of_clubs jack_of_clubs _ "Spades"
           eq_refl eq_refl).
Defined.

End CardExtras.

Section CardInvariants.

(** X4: every card a program can hold has a rank of the table (0, or 2 to 17)
    and 0, 1 or 3 points; it has points only if it is trump for the trump
    suit it was given; and [desc] finds its description. *)
Theorem constructed_card_ranges (c : Card.t) :
  constructed c ->
  is_rank (Card.rank c)
  /\ is_points (Card.points c)
  /\ (Card.is_trump c None = false -> Card.points c = 0)
  /\ exists d, Card.desc c = Ok d.
Proof.
  intros H; destruct H as [n s c H | c c' [t|] _ H].
  - destruct (init_inv _ _ _ H) as (_ & Hsym & Hr & Hp & Ht).
    destruct (ref_ranges _ _ Hr) as [Hrk _]; cbn in Hrk.
    repeat split; auto.
    + unfold is_points; auto.
    + unfold Card.desc; rewrite Hsym, Hr; cbn; eauto.
  - pose proof H as H'.
    apply set_trump_some_inv in H
      as (e0 & e1 & E0 & E1 & Hsym & Hn & Hs & Hr & Hp & Ht).
    destruct (ref_ranges _ _ E1) as [Hrk Hpt].
    rewrite Hr, Hp; repeat split; auto.
    + intros Hnt.
      assert (H0 : exists c0, Card.set_trump c None = Ok c0)
        by (unfold Card.set_trump; rewrite E0; cbn; eauto).
      destruct H0 as [c0 H0].
      destruct (set_trump_rank_cases c c0 c' t H0 H') as (Hi & _ & Hcase).
      rewrite Hnt in Hi; rewrite <- Hi in Hcase.
      destruct Hcase as (_ & _ & Hz); now rewrite <- Hp.
    + unfold Card.desc; rewrite E1; cbn; eauto.
  - apply set_trump_none_inv in H as (e0 & E0 & ->).
    destruct (ref_ranges _ _ E0) as [Hrk _].
    cbn; repeat split; auto.
    + unfold is_points; auto.
    + unfold Card.desc; cbn; rewrite E0; cbn; eauto.
Qed.

(** The off Jack made of the Jack of Spades under Clubs: rank 13, one
    point, trump. *)
Lemma constructed_card_ranges_witness :
  is_rank (Card.rank jack_as_off)
  /\ is_points (Card.points jack_as_off)
  /\ (Card.is_trump jack_as_off None = false -> Card.points jack_as_off = 0)
  /\ exists d, Card.desc jack_as_off = Ok d.
Proof.
  exact (constructed_card_ranges jack_as_off constructed_jack_as_off).
Defined.

End CardInvariants.

(* ================================================================== *)
(** ** More about hands                                                *)
(* ================================================================== *)

(** No two cards of the list have one short name: no two are equal ([==]). *)
Definition distinct (l : list Card.t) : Prop :=
  NoDup (map Card.short_name l).

(** The cards an argument of [add_cards] stands for. *)
Definition cards_of_arg (a : Hand.cards_arg) : list Card.t :=
  match a with
  | Hand.OfHand h => h
  | Hand.OfList l => l
  | Hand.OfCard c => [c]
  end.

(** The place of a suit in [suit_order]; 5 for any other string. *)
Definition suit_index (c : Card.t) : Z :=
  match lookup String.eqb (Card.suit c) Hand.suit_order with
  | Some o => o
  | None => 5
  end.

(** By suit in the order of [suit_order], and by descending rank within a
    suit. *)
Definition by_suit_then_rank (a b : Card.t) : Prop :=
  suit_index a < suit_index b
  \/ (suit_index a = suit_index b /\ Card.rank b <= Card.rank a).

Section HandExtras.

Lemma contains_spec (c : Card.t) (l : list Card.t) :
  Hand.contains c l = true <-> In (Card.short_name c) (map Card.short_name l).
Proof.
  unfold Hand.contains, Card.eq; rewrite existsb_exists, in_map_iff.
  split; intros (x & H1 & H2).
  - apply String.eqb_eq in H2; eauto.
  - exists x; split; [assumption | now apply String.eqb_eq].
Qed.

Lemma contains_false (c : Card.t) (l : list Card.t) :
  Hand.contains c l = false
  <-> ~ In (Card.short_name c) (map Card.short_name l).
Proof. rewrite <- contains_spec; destruct (Hand.contains c l); intuition congruence. Qed.

Lemma contains_self (c : Card.t) (l : list Card.t) :
  In c l -> Hand.contains c l = true.
Proof. intros H; apply contains_spec; now apply in_map. Qed.

Lemma contains_app (c : Card.t) (l1 l2 : list Card.t) :
  Hand.contains c (l1 ++ l2) = Hand.contains c l1 || Hand.contains c l2.
Proof. unfold Hand.contains; apply existsb_app. Qed.

Let add_one (cards : Hand.t) (card : Card.t) : Hand.t :=
  if Hand.contains card cards then cards else cards ++ [card].

Lemma add_one_contains (cards : Hand.t) (card : Card.t) :
  Hand.contains card (add_one cards card) = true.
Proof.
  unfold add_one; destruct (Hand.contains card cards) eqn:E; [assumption|].
  rewrite contains_app; cbn; unfold Card.eq; rewrite String.eqb_refl.
  now rewrite orb_true_r.
Qed.

Lemma add_fold (new cards : list Card.t) :
  exists added,
    fold_left add_one new cards = cards ++ added
    /\ incl added new
    /\ Forall (fun c => Hand.contains c cards = false) added
    /\ (forall c, In c new -> Hand.contains c (cards ++ added) = true)
    /\ (distinct cards -> distinct (cards ++ added)).
Proof.
  revert cards; induction new as [|card new IH]; intros cards.
  - exists []; rewrite app_nil_r; repeat split; auto.
    apply incl_refl.
  - cbn [fold_left].
    destruct (IH (add_one cards card))
      as (added & Hf & Hincl & Hnot & Hin & Hd).
    rewrite Hf.
    pose proof (add_one_contains cards card) as Hc.
    unfold add_one in *.
    destruct (Hand.contains card cards) eqn:E.
    + exists added; repeat split; auto.
      * now apply incl_tl.
      * intros c [<-|Hc']; [|auto].
        rewrite contains_app, E; reflexivity.
    + exists (card :: added).
      rewrite <- app_assoc in *; cbn [app] in *.
      repeat split; auto.
      * intros x [<-|Hx]; [now left | right; auto].
      * constructor; [assumption|].
        rewrite Forall_forall in *; intros x Hx.
        specialize (Hnot x Hx); rewrite contains_app in Hnot.
        now apply orb_false_iff in Hnot.
      * intros c [<-|Hc'].
        -- rewrite contains_app; apply orb_true_iff; right.
           cbn; unfold Card.eq; now rewrite String.eqb_refl.
        -- apply (Hin c Hc').
      * intros Hdc; apply Hd.
        unfold distinct in *; rewrite map_app; cbn [map].
        apply NoDup_app_remove_l with (l := []).
        cbn [app]. apply Permutation_NoDup
          with (l := Card.short_name card :: map Card.short_name cards).
        -- apply Permutation_cons_append.
        -- constructor; [now apply contains_false | assumption].
Qed.



(** X6: [add_cards] keeps a hand free of equal cards. *)
Theorem add_cards_distinct (cards : Hand.t) (new_cards : Hand.cards_arg) :
  distinct cards -> distinct (Hand.add_cards cards new_cards).
Proof.
  intros H.
  assert (E : Hand.add_cards cards new_cards
              = fold_left add_one (cards_of_arg new_cards) cards)
    by (destruct new_cards; reflexivity).
  destruct (add_fold (cards_of_arg new_cards) cards)
    as (added & Hf & _ & _ & _ & Hd).
  rewrite E, Hf; auto.
Qed.

(** A Jack of Spades in hand; the Jack of Clubs is added, the off Jack made
    of a Jack of Spades is not. *)
Lemma add_cards_distinct_witness :
  distinct (Hand.add_cards [jack_of_spades]
              (Hand.OfList [jack_of_clubs; jack_as_off])).
Proof.
  apply (add_cards_distinct [jack_of_spades]).
  unfold distinct; cbn [map]; constructor; [intros [] | constructor].
Defined.

Lemma filter_none {A : Type} (f : A -> bool) (l : list A) :
  Forall (fun x => f x = false) l -> filter f l = [].
Proof.
  induction 1 as [|x xs Hx _ IH]; cbn; [reflexivity|]; now rewrite Hx.
Qed.

Lemma filter_all {A : Type} (f : A -> bool) (l : list A) :
  Forall (fun x => f x = true) l -> filter f l = l.
Proof.
  induction 1 as [|x xs Hx _ IH]; cbn; [reflexivity|]; now rewrite Hx, IH.
Qed.

Lemma remove_added (cards : Hand.t) (l : list Card.t) :
  Hand.remove_cards (Hand.add_cards cards (Hand.OfList l)) (inl l)
  = Hand.remove_cards cards (inl l).
Proof.
  change (Hand.add_cards cards (Hand.OfList l))
    with (fold_left add_one l cards).
  destruct (add_fold l cards) as (added & -> & Hincl & _ & _ & _).
  unfold Hand.remove_cards; rewrite filter_app.
  rewrite (filter_none _ added); [apply app_nil_r|].
  apply Forall_forall; intros c Hc.
  rewrite (contains_self c l); [reflexivity | now apply Hincl].
Qed.

(** X7: adding cards and then removing the same cards is removing them: what
    was added goes, and so does every card of the hand equal to one of
    them; no card equal to a removed card is left. *)
Theorem remove_added_cards (cards : Hand.t) (l : list Card.t) :
  Hand.remove_cards (Hand.add_cards cards (Hand.OfList l)) (inl l)
  = Hand.remove_cards cards (inl l)
  /\ Forall (fun c => Hand.contains c l = false)
            (Hand.remove_cards cards (inl l)).
Proof.
  split; [apply remove_added|].
  unfold Hand.remove_cards; apply Forall_forall; intros c Hc.
  apply filter_In in Hc as [_ Hc]; now apply negb_true_iff.
Qed.

(** X8: a card that no card of the hand equals, added and then removed, leaves
    the hand as it was. *)
Theorem add_then_remove_card (cards : Hand.t) (c : Card.t) :
  Hand.contains c cards = false ->
  Hand.remove_cards (Hand.add_cards cards (Hand.OfCard c)) (inr c) = cards.
Proof.
  intros H.
  change (Hand.add_cards cards (Hand.OfCard c))
    with (Hand.add_cards cards (Hand.OfList [c])).
  assert (E : forall h, Hand.remove_cards h (inr c)
                        = Hand.remove_cards h (inl [c])) by reflexivity.
  rewrite E, (remove_added cards [c]).
  unfold Hand.remove_cards; apply filter_all.
  apply Forall_forall; intros x Hx; apply negb_true_iff.
  cbn [Hand.contains existsb]; rewrite orb_false_r.
  unfold Card.eq; apply String.eqb_neq; intros Heq.
  apply contains_false in H; apply H.
  rewrite Heq; now apply in_map.
Qed.

Lemma add_then_remove_card_witness :
  Hand.remove_cards
    (Hand.add_cards [jack_of_spades; jack_of_hearts]
                    (Hand.OfCard jack_of_clubs))
    (inr jack_of_clubs)
  = [jack_of_spades; jack_of_hearts].
Proof.
  apply (add_then_remove_card [jack_of_spades; jack_of_hearts] jack_of_clubs).
  reflexivity.
Defined.

(** *** The two sorts *)

Lemma sort_desc_fixed {A : Type} (key : A -> Z) (l : list A) :
  desc_by key l -> sort_desc key l = l.
Proof.
  unfold desc_by; induction 1 as [|x xs Hs IH Hx]; cbn [sort_desc];
    [reflexivity|].
  rewrite IH; destruct xs as [|y ys]; [reflexivity|].
  cbn [insert_desc]; inversion Hx; subst.
  destruct (Z.ltb_spec (key x) (key y)); [lia | reflexivity].
Qed.

(** X9: [sort_by_rank] rearranges the hand by descending rank, cards of one rank
    keeping their order; sorting a sorted hand changes nothing. *)
Theorem sort_by_rank_spec (cards : Hand.t) :
  Permutation (Hand.sort_by_rank cards) cards
  /\ descending (Hand.sort_by_rank cards)
  /\ (forall k, of_rank k (Hand.sort_by_rank cards) = of_rank k cards)
  /\ Hand.sort_by_rank (Hand.sort_by_rank cards) = Hand.sort_by_rank cards.
Proof.
  unfold Hand.sort_by_rank, descending; repeat split.
  - apply sort_desc_perm.
  - apply sort_desc_sorted.
  - intros k; apply (sort_desc_stable Card.rank).
  - apply sort_desc_fixed, sort_desc_sorted.
Qed.

Lemma pair_ltb_false (p q : Z * Z) :
  pair_ltb q p = false
  <-> fst p < fst q \/ (fst p = fst q /\ snd p <= snd q).
Proof.
  unfold pair_ltb.
  destruct (Z.ltb_spec (fst q) (fst p)), (Z.eqb_spec (fst q) (fst p)),
    (Z.ltb_spec (snd q) (snd p)); cbn; split; intros; try lia;
    try discriminate.
Qed.

Lemma insert_asc_perm {A K : Type} (ltb : K -> K -> bool) (key : A -> K)
  (x : A) (l : list A) :
  Permutation (insert_asc ltb key x l) (x :: l).
Proof.
  induction l as [|y ys IH]; cbn; [reflexivity|].
  destruct (ltb (key y) (key x)); [|reflexivity].
  rewrite IH; apply perm_swap.
Qed.

Lemma sort_asc_perm {A K : Type} (ltb : K -> K -> bool) (key : A -> K)
  (l : list A) :
  Permutation (sort_asc ltb key l) l.
Proof.
  induction l as [|x xs IH]; cbn; [reflexivity|].
  rewrite insert_asc_perm; now constructor.
Qed.

Lemma sort_asc_sorted {A : Type} (key : A -> Z * Z) (l : list A) :
  StronglySorted (fun x y => pair_ltb (key y) (key x) = false)
                 (sort_asc pair_ltb key l).
Proof.
  induction l as [|x xs IH]; cbn [sort_asc]; [constructor|].
  generalize dependent (sort_asc pair_ltb key xs); clear xs.
  induction l as [|y ys IHl]; intros Hs; cbn [insert_asc].
  - repeat constructor.
  - inversion Hs as [|? ? Hys Hall]; subst.
    destruct (pair_ltb (key y) (key x)) eqn:E.
    + constructor; [auto|].
      rewrite Forall_forall in *; intros z Hz.
      apply (Permutation_in _ (insert_asc_perm pair_ltb key x ys)) in Hz.
      destruct Hz as [<-|Hz]; [|auto].
      apply pair_ltb_false; unfold pair_ltb in E.
      destruct (Z.ltb_spec (fst (key y)) (fst (key x))),
        (Z.eqb_spec (fst (key y)) (fst (key x))),
        (Z.ltb_spec (snd (key y)) (snd (key x))); cbn in E;
        try discriminate; lia.
    + constructor; [assumption|].
      constructor; [assumption|].
      rewrite Forall_forall in *; intros z Hz; specialize (Hall z Hz).
      rewrite pair_ltb_false in *; lia.
Qed.

Lemma keyed_cards (cards : Hand.t) (keyed : list (Z * Z * Card.t)) :
  mapM (fun card =>
          o <- Py.getitem String.eqb Hand.suit_order (Card.suit card) ;;
          Ok ((o, - Card.rank card), card)) cards = Ok keyed ->
  map snd keyed = cards
  /\ Forall (fun kc => fst kc = (suit_index (snd kc), - Card.rank (snd kc))
                       /\ In (Card.suit (snd kc)) suit_names) keyed.
Proof.
  revert keyed; induction cards as [|c cs IH]; cbn [mapM]; intros keyed H.
  - inversion H; split; [reflexivity | constructor].
  - unfold Py.getitem at 1 in H.
    destruct (lookup String.eqb (Card.suit c) Hand.suit_order) as [o|] eqn:Eo;
      cbn [bind] in H; [|discriminate].
    match type of H with
    | bind ?m _ = _ => destruct m as [ks|] eqn:Eks
    end; cbn [bind] in H; [|discriminate].
    inversion H; subst; clear H.
    destruct (IH ks eq_refl) as [Hm Hf].
    cbn [map snd]; rewrite Hm; split; [reflexivity|].
    constructor; [|assumption]; cbn [fst snd]; split.
    + unfold suit_index; now rewrite Eo.
    + apply lookup_In in Eo; cbn in Eo; cbn.
      repeat (destruct Eo as [Eo|Eo]; [inversion Eo; subst; auto 6|]);
        contradiction.
Qed.

Lemma keyed_cards_raises (cards : Hand.t) (e : exn) :
  mapM (fun card =>
          o <- Py.getitem String.eqb Hand.suit_order (Card.suit card) ;;
          Ok ((o, - Card.rank card), card)) cards = Raise e ->
  e = KeyError
  /\ exists c, In c cards
              /\ lookup String.eqb (Card.suit c) Hand.suit_order = None.
Proof.
  induction cards as [|c cs IH]; cbn [mapM]; intros H; [discriminate|].
  unfold Py.getitem at 1 in H.
  destruct (lookup String.eqb (Card.suit c) Hand.suit_order) as [o|] eqn:Eo;
    cbn [bind] in H.
  - match type of H with
    | bind ?m _ = _ => destruct m as [ks|] eqn:Eks
    end; cbn [bind] in H; [discriminate|].
    inversion H; subst.
    destruct (IH eq_refl) as (He & x & Hx & Hl).
    split; [assumption|]; exists x; split; [now right | assumption].
  - inversion H; split; [reflexivity|].
    exists c; split; [now left | assumption].
Qed.

(** X10: [sort_by_suit_and_rank] returns the cards of the hand arranged by suit,
    in the order Spades, Hearts, Clubs, Diamonds, Joker, and by descending
    rank within a suit; it raises [KeyError] when a card has another suit,
    which no card built by the constructor has. *)
Theorem sort_by_suit_and_rank_spec (cards : Hand.t) :
  match Hand.sort_by_suit_and_rank cards with
  | Ok sorted =>
      Permutation sorted cards
      /\ StronglySorted by_suit_then_rank sorted
      /\ Forall (fun c => In (Card.suit c) suit_names) cards
  | Raise e =>
      e = KeyError
      /\ exists c, In c cards /\ (In (Card.suit c) suit_names -> False)
  end.
Proof.
  unfold Hand.sort_by_suit_and_rank.
  match goal with
  | |- context [bind ?m _] => destruct m as [keyed|e] eqn:E
  end; cbn [bind].
  - destruct (keyed_cards _ _ E) as [Hm Hk].
    pose proof (sort_asc_perm pair_ltb fst keyed) as Hp.
    pose proof (sort_asc_sorted fst keyed) as Hs.
    assert (Hk' : Forall (fun kc => fst kc = (suit_index (snd kc),
                                               - Card.rank (snd kc)))
                         (sort_asc pair_ltb fst keyed)).
    { rewrite Forall_forall in *; intros kc Hkc.
      apply (Permutation_in _ Hp) in Hkc; now apply Hk. }
    repeat split.
    + rewrite <- Hm; now apply Permutation_map.
    + clear Hp; induction Hs as [|kc l Hl IH Hall]; cbn [map];
        [constructor|].
      inversion Hk' as [|? ? Hkc Hk'']; subst.
      constructor; [auto|].
      rewrite Forall_forall in *; intros c Hc.
      apply in_map_iff in Hc as (kc' & <- & Hc).
      specialize (Hall kc' Hc); specialize (Hk'' kc' Hc).
      apply pair_ltb_false in Hall; rewrite Hkc, Hk'' in Hall.
      cbn [fst snd] in Hall; unfold by_suit_then_rank; lia.
    + rewrite <- Hm, Forall_forall in *; intros c Hc.
      apply in_map_iff in Hc as (kc & <- & Hc); now apply Hk.
  - destruct (keyed_cards_raises _ _ E) as (-> & c & Hc & Hl).
    split; [reflexivity|]; exists c; split; [assumption|].
    apply lookup_None in Hl; intros Hs; apply Hl.
    cbn in Hs |- *; tauto.
Qed.

End HandExtras.

Section DiscardExtras.

Lemma filter_split_perm {A : Type} (p q : A -> bool) (l : list A) :
  Forall (fun x => q x = negb (p x)) l ->
  Permutation (filter p l ++ filter q l) l.
Proof.
  induction 1 as [|x xs Hx _ IH]; cbn [filter app]; [constructor|].
  rewrite Hx; destruct (p x); cbn [negb app].
  - now constructor.
  - rewrite <- Permutation_middle; now constructor.
Qed.

Lemma slice_to_firstn {A : Type} (l : list A) (n : Z) :
  exists m, slice_to l n = firstn m l.
Proof. unfold slice_to; destruct (n <? 0); eauto. Qed.

Lemma trim_perm (suit : option string) (cards : Hand.t) :
  Forall (fun c => 0 <= Card.points c) cards ->
  exists dropped,
    Permutation
      (Hand.trim (filter (fun card => Card.is_trump card suit) cards)
       ++ dropped)
      (filter (fun card => Card.is_trump card suit) cards).
Proof.
  intros Hnn; unfold Hand.trim.
  set (T := filter _ cards).
  destruct (Z.of_nat (length T) >? 6); [|exists []; now rewrite app_nil_r].
  destruct (slice_to_firstn
              (sort_desc Card.rank
                 (filter (fun card => Card.points card =? 0) T))
              (6 - Z.of_nat
                     (length (filter (fun card => Card.points card >? 0) T))))
    as [m ->].
  eexists (skipn m _); rewrite <- app_assoc, firstn_skipn, sort_desc_perm.
  apply filter_split_perm.
  pose proof (trumps_nonneg suit cards Hnn) as H; fold T in H.
  rewrite Forall_forall in *; intros c Hc; specialize (H c Hc).
  rewrite Z.gtb_ltb.
  destruct (Z.ltb_spec 0 (Card.points c)), (Z.eqb_spec (Card.points c) 0);
    cbn; auto; lia.
Qed.

Lemma discard_result (cards cards' h : Hand.t) (suit : option string)
  (is_bidder : bool) :
  Hand.set_trump cards suit = Ok cards' ->
  Hand.discard_non_trumps cards suit is_bidder = Ok h ->
  h = Hand.sort_by_rank
        (Hand.pad is_bidder
           (if is_bidder then non_trumps suit cards' else [])
           (Hand.trim (filter (fun card => Card.is_trump card suit) cards')))
  /\ (length h <= 6)%nat.
Proof.
  intros Hs H; rewrite (discard_unfold _ _ _ _ Hs) in H; cbv zeta in H.
  rewrite Z.gtb_ltb in H.
  match type of H with
  | (if ?b then _ else _) = _ => destruct (Z.ltb_spec 6 (Z.of_nat (length (Hand.sort_by_rank (Hand.pad is_bidder (if is_bidder then non_trumps suit cards' else []) (Hand.trim (filter (fun card => Card.is_trump card suit) cards')))))))
  end; [discriminate|].
  inversion H; subst; split; [reflexivity | lia].
Qed.

Lemma discard_split (cards h : Hand.t) (suit : option string)
  (is_bidder : bool) :
  Hand.discard_non_trumps cards suit is_bidder = Ok h ->
  exists cards' dropped,
    Hand.set_trump cards suit = Ok cards'
    /\ Permutation (h ++ dropped) cards'
    /\ descending h
    /\ (is_bidder = false ->
        Forall (fun c => Card.is_trump c suit = true) h).
Proof.
  intros H.
  destruct (Hand.set_trump cards suit) as [cards'|] eqn:Hs;
    [|unfold Hand.discard_non_trumps in H; rewrite Hs in H; discriminate].
  destruct (discard_result _ _ _ _ _ Hs H) as [-> _].
  pose proof (hand_set_trump_nonneg _ _ _ Hs) as Hnn.
  destruct (trim_perm suit cards' Hnn) as [dT HdT].
  set (T := filter (fun card => Card.is_trump card suit) cards') in *.
  assert (HTN : Permutation (T ++ non_trumps suit cards') cards').
  { apply filter_split_perm, Forall_forall; reflexivity. }
  exists cards'.
  exists (dT ++ (if is_bidder
                 then skipn (6 - length (Hand.trim T))
                            (non_trumps suit cards')
                 else non_trumps suit cards')).
  split; [reflexivity|]; split; [|split].
  - unfold Hand.sort_by_rank.
    eapply perm_trans;
      [apply Permutation_app_tail, sort_desc_perm|].
    rewrite pad_spec.
    apply perm_trans with (l' := T ++ non_trumps suit cards');
      [|exact HTN].
    destruct is_bidder.
    + apply perm_trans
        with (l' := (Hand.trim T ++ dT)
                    ++ (firstn (6 - length (Hand.trim T))
                               (non_trumps suit cards')
                        ++ skipn (6 - length (Hand.trim T))
                                 (non_trumps suit cards'))).
      * rewrite <- !app_assoc; apply Permutation_app_head.
        rewrite !app_assoc; apply Permutation_app_tail, Permutation_app_comm.
      * rewrite firstn_skipn; now apply Permutation_app_tail.
    + rewrite firstn_nil, app_nil_r, app_assoc.
      now apply Permutation_app_tail.
  - apply (sort_desc_sorted Card.rank).
  - intros ->; rewrite pad_spec, firstn_nil, app_nil_r.
    apply Forall_forall; intros c Hc.
    apply sort_desc_In in Hc.
    assert (HcT : In c T).
    { apply (Permutation_in _ HdT), in_or_app; now left. }
    apply filter_In in HcT; tauto.
Qed.

(** X11: a discard that returns only drops cards: the hand it leaves and the
    cards it drops are together the cards of the hand, each with the trump
    suit set; the hand is left in descending order of rank, and the hand of
    a player who is not the bidder holds trump cards only. *)
Theorem discard_conserves (cards h : Hand.t) (suit : option string)
  (is_bidder : bool) :
  Hand.discard_non_trumps cards suit is_bidder = Ok h ->
  exists cards' dropped,
    Hand.set_trump cards suit = Ok cards'
    /\ Permutation (h ++ dropped) cards'
    /\ descending h
    /\ (is_bidder = false ->
        Forall (fun c => Card.is_trump c suit = true) h).
Proof. exact (discard_split cards h suit is_bidder). Qed.

Lemma discard_conserves_witness :
  exists cards' dropped,
    Hand.set_trump nine_cards (Some "Spades") = Ok cards'
    /\ Permutation (discarded nine_cards (Some "Spades") false ++ dropped)
                   cards'
    /\ descending (discarded nine_cards (Some "Spades") false)
    /\ (false = false ->
        Forall (fun c => Card.is_trump c (Some "Spades") = true)
               (discarded nine_cards (Some "Spades") false)).
Proof.
  exact (discard_conserves nine_cards
           (discarded nine_cards (Some "Spades") false)
           (Some "Spades") false eq_refl).
Defined.

(** X12: a discard that returns leaves the bidder 6 cards, or the whole hand when
    it has fewer than 6 cards; it leaves any other player 6 trump cards, or
    all the trump cards of the hand when there are fewer than 6. *)
Theorem discard_size (cards h : Hand.t) (suit : option string)
  (is_bidder : bool) :
  Hand.discard_non_trumps cards suit is_bidder = Ok h ->
  exists cards',
    Hand.set_trump cards suit = Ok cards'
    /\ length h
       = Nat.min 6 (if is_bidder
                    then length cards
                    else length (filter (fun c => Card.is_trump c suit)
                                        cards')).
Proof.
  intros H.
  destruct (Hand.set_trump cards suit) as [cards'|] eqn:Hs;
    [|unfold Hand.discard_non_trumps in H; rewrite Hs in H; discriminate].
  exists cards'; split; [reflexivity|].
  destruct (discard_result _ _ _ _ _ Hs H) as [-> Hle].
  pose proof (hand_set_trump_nonneg _ _ _ Hs) as Hnn.
  destruct (final_length cards' suit is_bidder
              (if is_bidder then non_trumps suit cards' else []) Hnn)
    as [Hlen _]; cbv zeta in Hlen.
  assert (Hp : (length (point_trumps suit cards') <= 6)%nat).
  { destruct (Nat.le_gt_cases (length (point_trumps suit cards')) 6);
      [assumption | apply Hlen in H0; lia]. }
  pose proof (trim_length_small suit cards' Hnn Hp) as Ht.
  unfold Hand.sort_by_rank in *; rewrite sort_desc_length in *.
  rewrite pad_spec, length_app, length_firstn, Ht.
  pose proof (filter_split_length
                (fun c => Card.is_trump c suit)
                (fun c => negb (Card.is_trump c suit)) cards'
                ltac:(apply Forall_forall; reflexivity)) as Hsplit.
  fold (non_trumps suit cards') in Hsplit.
  apply mapM_length in Hs.
  destruct is_bidder; cbn [length]; lia.
Qed.

Lemma discard_size_witness :
  exists cards',
    Hand.set_trump nine_cards (Some "Hearts") = Ok cards'
    /\ length (discarded nine_cards (Some "Hearts") true)
       = Nat.min 6 (length nine_cards).
Proof.
  exact (discard_size nine_cards (discarded nine_cards (Some "Hearts") true)
           (Some "Hearts") true eq_refl).
Defined.

Lemma mapM_In_inv {A B : Type} (f : A -> result B) (l : list A)
  (l' : list B) :
  mapM f l = Ok l' -> forall y, In y l' -> exists x, In x l /\ f x = Ok y.
Proof.
  revert l'; induction l as [|x xs IH]; cbn [mapM]; intros l' H y Hy.
  - inversion H; subst; contradiction.
  - destruct (f x) as [y0|] eqn:Ex; cbn [bind] in H; [|discriminate].
    destruct (mapM f xs) as [ys|]; cbn [bind] in H; [|discriminate].
    inversion H; subst; destruct Hy as [<-|Hy].
    + exists x; split; [now left | assumption].
    + destruct (IH ys eq_refl y Hy) as (x' & Hx' & Hf).
      exists x'; split; [now right | assumption].
Qed.

Lemma mapM_fixed {A : Type} (f : A -> result A) (l : list A) :
  (forall x, In x l -> f x = Ok x) -> mapM f l = Ok l.
Proof.
  induction l as [|x xs IH]; cbn [mapM]; intros H; [reflexivity|].
  rewrite (H x (or_introl eq_refl)); cbn [bind].
  rewrite IH; [reflexivity | intros y Hy; apply H; now right].
Qed.

Lemma set_trump_fixed (c c' : Card.t) (suit : option string) :
  Card.set_trump c suit = Ok c' -> Card.set_trump c' suit = Ok c'.
Proof.
  intros H; pose proof (set_trump_identity _ _ _ H) as (Hn & Hs & Hsn).
  now rewrite (set_trump_reads_identity c' c suit Hn Hs Hsn).
Qed.

(** X13: discarding again, for the same trump suit and a player who is not the
    bidder, changes nothing. *)
Theorem discard_twice (cards h : Hand.t) (suit : option string) :
  Hand.discard_non_trumps cards suit false = Ok h ->
  Hand.discard_non_trumps h suit false = Ok h.
Proof.
  intros H.
  destruct (discard_split _ _ _ _ H)
    as (cards' & dropped & Hs & Hperm & Hdesc & Htr).
  specialize (Htr eq_refl).
  destruct (discard_result _ _ _ _ _ Hs H) as [_ Hle].
  assert (Hh : Hand.set_trump h suit = Ok h).
  { apply mapM_fixed; intros x Hx.
    assert (Hx' : In x cards')
      by (apply (Permutation_in _ Hperm), in_or_app; now left).
    destruct (mapM_In_inv _ _ _ Hs x Hx') as (c & _ & Hc).
    eapply set_trump_fixed; eauto. }
  rewrite (discard_unfold _ _ _ _ Hh); cbv zeta.
  rewrite (filter_all _ h Htr).
  unfold Hand.trim.
  replace (Z.of_nat (length h) >? 6) with false
    by (symmetry; rewrite Z.gtb_ltb; apply Z.ltb_ge; lia).
  rewrite pad_spec, firstn_nil, app_nil_r.
  unfold Hand.sort_by_rank; rewrite (sort_desc_fixed Card.rank h Hdesc).
  replace (Z.of_nat (length h) >? 6) with false
    by (symmetry; rewrite Z.gtb_ltb; apply Z.ltb_ge; lia).
  reflexivity.
Qed.

Lemma discard_twice_witness :
  Hand.discard_non_trumps (discarded nine_cards (Some "Spades") false)
                          (Some "Spades") false
  = Ok (discarded nine_cards (Some "Spades") false).
Proof.
  exact (discard_twice nine_cards
           (discarded nine_cards (Some "Spades") false)
           (Some "Spades") eq_refl).
Defined.

End DiscardExtras.

(* ================================================================== *)
(** ** More about bidding                                              *)
(* ================================================================== *)


(** A player who holds the Spades of strength 6.8, and the same player
    after a bid against a current bid of 5. *)
Definition bidder : Player.t := new_player (Some 0) hand_6_8 0 0.

Definition bidder_after : Player.t :=
  Eval vm_compute in
    match Player.default_bid_strategy bidder 5 None with
    | Ok (_, p') => p'
    | Raise _ => bidder
    end.

Section BidExtras.

(** X14: among the seats 0 to 3, [is_partner] holds for the seat across the table
    unless that seat is seat 0: seat 2 never takes seat 0 for its partner,
    and no bidder ([None]) is nobody's partner. *)
Theorem is_partner_seats (self : Player.t) (p q : Z) :
  Player.position self = Some p -> 0 <= p <= 3 -> 0 <= q <= 3 ->
  (Player.is_partner self (Some q) = true
   <-> (p = 0 /\ q = 2) \/ (p = 1 /\ q = 3) \/ (p = 3 /\ q = 1))
  /\ Player.is_partner self None = false.
Proof.
  intros Hp Hpr Hqr; split; [|reflexivity].
  unfold Player.is_partner; rewrite Hp.
  assert (Hq : q = 0 \/ q = 1 \/ q = 2 \/ q = 3) by lia.
  assert (Hp' : p = 0 \/ p = 1 \/ p = 2 \/ p = 3) by lia.
  destruct Hq as [-> | [-> | [-> | ->]]], Hp' as [-> | [-> | [-> | ->]]];
    cbn; split; intros H; try discriminate; try reflexivity; lia.
Qed.

(** The player at seat 2 and the bidder at seat 0. *)
Lemma is_partner_seats_witness :
  (Player.is_partner (new_player (Some 2) [] 0 0) (Some 0) = true
   <-> (2 = 0 /\ 0 = 2) \/ (2 = 1 /\ 0 = 3) \/ (2 = 3 /\ 0 = 1))
  /\ Player.is_partner (new_player (Some 2) [] 0 0) None = false.
Proof.
  apply (is_partner_seats (new_player (Some 2) [] 0 0) 2 0);
    [reflexivity | lia | lia].
Defined.

(** The bid the last steps give: a pass; or, against a bid, one more than
    that bid; or, against no bid, 5 or 6. *)
Lemma final_bid_shape (v : Q) (current_bid : Z) :
  let bid := Player.final_bid v current_bid in
  bid = 0
  \/ (0 < current_bid /\ bid = current_bid + 1
      /\ 5 <= Player.int v /\ current_bid < Player.int v)
  \/ (current_bid <= 0 /\ 5 <= Player.int v
      /\ ((Player.int v <= 6 /\ bid = Player.int v) \/ (7 <= Player.int v /\ bid = 6))).
Proof.
  unfold Player.final_bid; cbv zeta.
  generalize (Player.int v); intros w.
  rewrite !Z.gtb_ltb, !Z.geb_leb.
  repeat match goal with
         | |- context [?a <? ?b] => destruct (Z.ltb_spec a b)
         | |- context [?a <=? ?b] => destruct (Z.leb_spec a b)
         end; cbn [andb]; lia.
Qed.

Lemma same_cards_refl (h : Hand.t) : same_cards h h.
Proof. unfold same_cards; induction h; constructor; auto. Qed.

Lemma same_cards_trans (h1 h2 h3 : Hand.t) :
  same_cards h1 h2 -> same_cards h2 h3 -> same_cards h1 h3.
Proof.
  unfold same_cards; intros H; revert h3.
  induction H as [|a b l1 l2 (Hn & Hs & Hk) _ IH]; intros h3 H23;
    inversion H23 as [|? c ? l3 (Hn' & Hs' & Hk') H23']; subst;
    constructor; auto.
  repeat split; congruence.
Qed.

(** What the loop over the suits leaves of the player. *)
Lemma loop_frame (l : list string) (p x : Player.t) :
  foldM Player.evaluate_suit l p = Ok x ->
  same_cards (Player.hand p) (Player.hand x)
  /\ Player.position x = Player.position p
  /\ Player.aggressiveness x = Player.aggressiveness p
  /\ Player.restraint x = Player.restraint p
  /\ Player.bid_strength x = Player.bid_strength p.
Proof.
  revert p; induction l as [|suit l IH]; intros p H; cbn [foldM] in H.
  - inversion H; subst; repeat split; apply same_cards_refl.
  - unfold Player.evaluate_suit in H.
    destruct (Hand.set_trump (Player.hand p) (Some suit)) as [h|] eqn:Eh;
      cbn [bind Player.set_hand Player.bid_strength Player.hand
           Player.bid_value] in H; [|discriminate].
    destruct (Player.strength (Player.bid_strength p) h) as [q|];
      cbn [bind] in H; [|discriminate].
    apply hand_set_trump_same_cards in Eh.
    destruct (Player.replaces q (Player.bid_value p)); cbn [bind] in H;
      apply IH in H as (Hc & Hp & Ha & Hr & Ht);
      cbn [Player.set_bid Player.hand Player.position Player.aggressiveness
           Player.restraint Player.bid_strength] in *;
      repeat split; auto; eapply same_cards_trans; eauto.
Qed.

Lemma choose_suit (l : list (string * Q)) (bv : option Q)
  (bs : option string) :
  (choose l bv bs = (bv, bs))
  \/ exists s q, In (s, q) l /\ choose l bv bs = (Some q, Some s).
Proof.
  revert bv bs; induction l as [|[s q] l IH]; intros bv bs; cbn [choose];
    [now left|].
  destruct (Player.replaces q bv).
  - right; destruct (IH (Some q) (Some s)) as [E | (s' & q' & Hin & E)].
    + exists s, q; split; [now left | assumption].
    + exists s', q'; split; [now right | assumption].
  - destruct (IH bv bs) as [E | (s' & q' & Hin & E)]; [now left|].
    right; exists s', q'; split; [now right | assumption].
Qed.

Lemma strengths_of_suits (p : Player.t) (l : list string)
  (strengths : list (string * Q)) :
  strengths_of p l = Ok strengths -> map fst strengths = l.
Proof.
  unfold strengths_of; revert strengths.
  induction l as [|s l IH]; cbn [mapM]; intros strengths H.
  - inversion H; reflexivity.
  - destruct (Hand.set_trump (Player.hand p) (Some s)) as [h|];
      cbn [bind] in H; [|discriminate].
    destruct (Player.strength (Player.bid_strength p) h); cbn [bind] in H;
      [|discriminate].
    match type of H with
    | bind ?m _ = _ => destruct m as [ss|] eqn:E
    end; cbn [bind] in H; [|discriminate].
    inversion H; subst; cbn [map fst]; f_equal; now apply IH.
Qed.

(** X15: what a bid that returns leaves: the bid is a pass, or one more than the
    current bid, or against no bid 5 or 6, never 7; a bid that is not a pass
    is above the current bid; the bid is recorded; the suit recorded is one
    of the four; the cards of the hand are as [set_trump(None)] leaves them;
    the seat and the strategies are as they were. *)
Theorem bid_outcome (p p' : Player.t) (current_bid bid : Z)
  (current_bidder : option Z) :
  Player.default_bid_strategy p current_bid current_bidder = Ok (bid, p') ->
  (bid = 0
   \/ (0 < current_bid /\ bid = current_bid + 1)
   \/ (current_bid <= 0 /\ (bid = 5 \/ bid = 6)))
  /\ (bid = 0 \/ current_bid < bid)
  /\ Player.bid_value p' = Some (inject_Z bid)
  /\ (exists s, Player.choose_trumps p' = Some s /\ In s Player.suits)
  /\ Hand.set_trump (Player.hand p) None = Ok (Player.hand p')
  /\ Player.position p' = Player.position p
  /\ Player.aggressiveness p' = Player.aggressiveness p
  /\ Player.restraint p' = Player.restraint p
  /\ Player.bid_strength p' = Player.bid_strength p.
Proof.
  intros H; unfold Player.default_bid_strategy in H.
  destruct (foldM Player.evaluate_suit Player.suits
              (Player.set_bid p None None)) as [x|] eqn:Ex;
    cbn [bind] in H; [|discriminate].
  destruct (Hand.set_trump (Player.hand x) None) as [h|] eqn:Eh;
    cbn [bind Player.set_hand Player.bid_value Player.bidding_suit] in H;
    [|discriminate].
  destruct (Player.bid_value x) as [best|] eqn:Eb; [|discriminate].
  inversion H; subst; clear H.
  cbn [Player.set_bid Player.bid_value Player.choose_trumps
       Player.bidding_suit Player.hand Player.position
       Player.aggressiveness Player.restraint Player.bid_strength].
  destruct (loop_frame _ _ _ Ex) as (Hc & Hp & Ha & Hr & Ht).
  cbn [Player.set_bid Player.hand Player.position Player.aggressiveness
       Player.restraint Player.bid_strength] in *.
  set (v := Player.computed_bid _ best current_bidder).
  pose proof (final_bid_shape v current_bid) as Hshape; cbv zeta in Hshape.
  split; [lia|]. split; [lia|]. split; [reflexivity|].
  split; [|repeat split; auto; cbn [Player.set_hand Player.hand];
           rewrite <- Eh; symmetry; now apply same_cards_set_trump].
  apply loop_choose in Ex as (strengths & Hs & Hch).
  cbn [Player.set_bid Player.bid_value Player.bidding_suit] in Hch.
  apply strengths_of_suits in Hs.
  destruct (choose_suit strengths None None) as [E | (s & q & Hin & E)];
    rewrite E in Hch; inversion Hch as [[Hbv Hbs]].
  - rewrite Eb in Hbv; discriminate.
  - exists s; split; [assumption|].
    rewrite <- Hs; change s with (fst (s, q)); now apply in_map.
Qed.

(** The Spades of strength 6.8 against a bid of 5. *)
Lemma bid_outcome_witness :
  (6 = 0 \/ (0 < 5 /\ 6 = 5 + 1) \/ (5 <= 0 /\ (6 = 5 \/ 6 = 6)))
  /\ (6 = 0 \/ 5 < 6)
  /\ Player.bid_value bidder_after = Some (inject_Z 6)
  /\ (exists s, Player.choose_trumps bidder_after = Some s
                /\ In s Player.suits)
  /\ Hand.set_trump (Player.hand bidder) None = Ok (Player.hand bidder_after)
  /\ Player.position bidder_after = Player.position bidder
  /\ Player.aggressiveness bidder_after = Player.aggressiveness bidder
  /\ Player.restraint bidder_after = Player.restraint bidder
  /\ Player.bid_strength bidder_after = Player.bid_strength bidder.
Proof.
  apply (bid_outcome bidder bidder_after 5 6 None).
  vm_compute; reflexivity.
Defined.

End BidExtras.

Section RestraintExtras.




Lemma max0_nonneg (x : Q) : (0 <= Player.max0 x)%Q.
Proof.
  unfold Player.max0; destruct (Player.Qlt_bool 0 x) eqn:E.
  - apply Qlt_bool_iff in E; now apply Qlt_le_weak.
  - apply Qle_refl.
Qed.



End RestraintExtras.

(* ================================================================== *)
(** ** The strength table and the suit a bid records                   *)
(* ================================================================== *)





Section BidTableExtras.











End BidTableExtras.

(* ================================================================== *)
(** ** More about card play                                            *)
(* ================================================================== *)


(** A card saves a point for [play_save_point]: one point, neither a 2 nor
    an Ace, and a rank above every rank played. *)
Definition saves (gs : Player.game_state) (c : Card.t) : bool :=
  (Card.points c =? 1)
  && Player.not_in (Card.rank c) [2; 17]
  && (Card.rank c >? Player.highest_played_rank gs).

(** A trump card without points, for the trump suit of the game state. *)
Definition plain_trump (gs : Player.game_state) (c : Card.t) : bool :=
  Card.is_trump c (Player.trumps gs) && (Card.points c =? 0).

Section PlayExtras.

Lemma min_from_le {A : Type} (key : A -> Z) (best : A) (l : list A) (x : A) :
  In x (best :: l) -> key (min_from Z.ltb key best l) <= key x.
Proof.
  revert best x; induction l as [|y ys IH]; intros best x H; cbn [min_from].
  - destruct H as [<-|[]]; lia.
  - destruct (Z.ltb_spec (key y) (key best)) as [Hlt|Hge].
    + destruct H as [<-|[<-|H]].
      * pose proof (IH y y (or_introl eq_refl)); lia.
      * apply IH; now left.
      * apply IH; now right.
    + destruct H as [<-|[<-|H]].
      * apply IH; now left.
      * pose proof (IH best best (or_introl eq_refl)); lia.
      * apply IH; now right.
Qed.

Lemma max_from_ge {A : Type} (key : A -> Z) (best : A) (l : list A) (x : A) :
  In x (best :: l) -> key x <= key (max_from Z.ltb key best l).
Proof.
  revert best x; induction l as [|y ys IH]; intros best x H; cbn [max_from].
  - destruct H as [<-|[]]; lia.
  - destruct (Z.ltb_spec (key best) (key y)) as [Hlt|Hge].
    + destruct H as [<-|[<-|H]].
      * pose proof (IH y y (or_introl eq_refl)); lia.
      * apply IH; now left.
      * apply IH; now right.
    + destruct H as [<-|[<-|H]].
      * apply IH; now left.
      * pose proof (IH best best (or_introl eq_refl)); lia.
      * apply IH; now right.
Qed.

(** [min] and [max] by rank over a list that is not empty. *)
Lemma min_rank_spec (l : list Card.t) :
  Player.nonempty l = true ->
  exists card, Player.min_rank l = Ok card /\ In card l
               /\ forall c, In c l -> Card.rank card <= Card.rank c.
Proof.
  destruct l as [|x xs]; [discriminate|]; intros _.
  eexists; split; [reflexivity|]; split;
    [apply min_from_In | intros c Hc; now apply min_from_le].
Qed.

Lemma max_rank_spec (l : list Card.t) :
  Player.nonempty l = true ->
  exists card, Player.max_rank l = Ok card /\ In card l
               /\ forall c, In c l -> Card.rank c <= Card.rank card.
Proof.
  destruct l as [|x xs]; [discriminate|]; intros _.
  eexists; split; [reflexivity|]; split;
    [apply max_from_In | intros c Hc; now apply max_from_ge].
Qed.

Lemma nonempty_In {A : Type} (l : list A) (x : A) :
  In x l -> Player.nonempty l = true.
Proof. destruct l; [intros [] | reflexivity]. Qed.


(** X19: on an empty hand every strategy raises, and so does the default
    strategy: none returns a card or [None]. *)
Theorem empty_hand_raises (s : Player.strategy) (self : Player.t)
  (gs : Player.game_state) (r : nat) :
  Player.hand self = [] ->
  (exists e, Player.select s (Player.hand self) gs = Raise e)
  /\ Player.default_play_strategy self gs = Raise IndexError
  /\ exists e, Player.play_card r (Player.builtin s) self gs = Raise e.
Proof.
  intros H.
  assert (E : exists e, Player.select s [] gs = Raise e).
  { destruct s; cbn;
      unfold Player.play_random, Player.play_lowest,
        Player.play_highest_no_point, Player.play_highest_points,
        Player.play_just_higher, Player.play_lowest_no_point,
        Player.play_single_point, Player.play_save_point, Player.play_off,
        Player.lowest_trump_or_card; cbn;
      rewrite ?andb_false_r; cbn; eauto.
    unfold choice; cbn [length].
    match goal with
    | |- context [nth_error [] ?n] => destruct n
    end; cbn; eauto. }
  rewrite H; split; [exact E|]; split.
  - unfold Player.default_play_strategy; rewrite H; reflexivity.
  - destruct E as [e E]; exists e.
    unfold Player.play_card, Player.builtin; rewrite H, E; reflexivity.
Qed.

Lemma empty_hand_raises_witness :
  (exists e, Player.select Player.Off
               (Player.hand (new_player (Some 0) [] 0 0)) queen_led = Raise e)
  /\ Player.default_play_strategy (new_player (Some 0) [] 0 0) queen_led
     = Raise IndexError
  /\ exists e, Player.play_card 0 (Player.builtin Player.Off)
                 (new_player (Some 0) [] 0 0) queen_led = Raise e.
Proof.
  exact (empty_hand_raises Player.Off (new_player (Some 0) [] 0 0)
           queen_led 0 eq_refl).
Defined.

(** X20: [play_highest] returns a card of the hand that no card of the hand
    outranks; [play_lowest] returns a card of the hand that outranks no
    card of the hand, or, when trump was led and the hand holds trump, a
    trump card that outranks no trump card of the hand. *)
Theorem highest_and_lowest (cards : Hand.t) (gs : Player.game_state) :
  cards <> [] ->
  (exists card,
      Player.play_highest cards gs = Ok card /\ In card cards
      /\ forall c, In c cards -> Card.rank c <= Card.rank card)
  /\ (exists card,
         Player.play_lowest cards gs = Ok card /\ In card cards
         /\ if Player.trumps_led gs
               && existsb (fun c => Card.is_trump c (Player.trumps gs)) cards
            then Card.is_trump card (Player.trumps gs) = true
                 /\ forall c, In c cards ->
                              Card.is_trump c (Player.trumps gs) = true ->
                              Card.rank card <= Card.rank c
            else forall c, In c cards -> Card.rank card <= Card.rank c).
Proof.
  intros H.
  assert (Hne : Player.nonempty cards = true)
    by (destruct cards; [contradiction | reflexivity]).
  split; [unfold Player.play_highest; now apply max_rank_spec|].
  unfold Player.play_lowest; cbv zeta.
  assert (Ht : Player.nonempty (Player.trump_cards_of cards gs)
               = existsb (fun c => Card.is_trump c (Player.trumps gs)) cards).
  { unfold Player.trump_cards_of.
    induction cards as [|c cs IH]; [reflexivity|]; cbn [filter existsb].
    destruct (Card.is_trump c (Player.trumps gs)); [reflexivity|].
    destruct cs; [reflexivity | apply IH; [discriminate | reflexivity]]. }
  rewrite <- Ht.
  destruct (Player.trumps_led gs
            && Player.nonempty (Player.trump_cards_of cards gs)) eqn:E.
  - apply andb_true_iff in E as [_ E].
    destruct (min_rank_spec _ E) as (card & Hc & Hin & Hmin).
    unfold Player.trump_cards_of in *.
    apply filter_In in Hin as [Hin Htr].
    exists card; repeat split; auto.
    intros c Hc' Hct; apply Hmin, filter_In; auto.
  - destruct (min_rank_spec _ Hne) as (card & Hc & Hin & Hmin).
    exists card; auto.
Qed.

Lemma highest_and_lowest_witness :
  (exists card,
      Player.play_highest (Player.hand spades_player) queen_led = Ok card
      /\ In card (Player.hand spades_player)
      /\ forall c, In c (Player.hand spades_player) ->
                   Card.rank c <= Card.rank card)
  /\ (exists card,
         Player.play_lowest (Player.hand spades_player) queen_led = Ok card
         /\ In card (Player.hand spades_player)
         /\ if Player.trumps_led queen_led
               && existsb (fun c => Card.is_trump c (Player.trumps queen_led))
                          (Player.hand spades_player)
            then Card.is_trump card (Player.trumps queen_led) = true
                 /\ forall c, In c (Player.hand spades_player) ->
                      Card.is_trump c (Player.trumps queen_led) = true ->
                      Card.rank card <= Card.rank c
            else forall c, In c (Player.hand spades_player) ->
                           Card.rank card <= Card.rank c).
Proof.
  apply (highest_and_lowest (Player.hand spades_player) queen_led).
  discriminate.
Defined.



(** X22: when some card of the hand saves a point (one point, neither a 2 nor an
    Ace, above every card played), [play_save_point] returns such a card of
    the hand, and none of them ranks lower. *)
Theorem save_point_saves (cards : Hand.t) (gs : Player.game_state)
  (c0 : Card.t) :
  In c0 cards -> saves gs c0 = true ->
  exists card,
    Player.play_save_point cards gs = Ok card
    /\ In card cards
    /\ saves gs card = true
    /\ (forall c, In c cards -> saves gs c = true ->
                  Card.rank card <= Card.rank c).
Proof.
  intros Hin Hb; unfold Player.play_save_point; cbv zeta.
  change (filter (fun card => (Card.points card =? 1)
                              && Player.not_in (Card.rank card) [2; 17]
                              && (Card.rank card
                                  >? Player.highest_played_rank gs)) cards)
    with (filter (saves gs) cards).
  assert (Hne : Player.nonempty (filter (saves gs) cards) = true)
    by (apply (nonempty_In _ c0), filter_In; auto).
  rewrite Hne.
  destruct (min_rank_spec _ Hne) as (card & Hc & Hcin & Hmin).
  apply filter_In in Hcin as [Hcin Hcb].
  exists card; repeat split; auto.
  intros c Hc' Hcb'; apply Hmin, filter_In; auto.
Qed.

(** With no card played yet, the off Jack saves a point. *)
Lemma save_point_saves_witness :
  exists card,
    Player.play_save_point (Player.hand spades_player)
                           (Player.GameState (Some "Spades") true []) = Ok card
    /\ In card (Player.hand spades_player)
    /\ saves (Player.GameState (Some "Spades") true []) card = true
    /\ (forall c, In c (Player.hand spades_player) ->
                  saves (Player.GameState (Some "Spades") true []) c = true ->
                  Card.rank card <= Card.rank c).
Proof.
  apply (save_point_saves (Player.hand spades_player)
           (Player.GameState (Some "Spades") true [])
           (Card.Make "Jack" "Spades" "J♠" "J" 14 1 (Some "Spades")));
    [cbn; tauto | reflexivity].
Defined.

(** X23: when the hand holds a trump card without points,
    [play_highest_no_point] returns such a card of the hand, and none of
    them ranks higher. *)
Theorem highest_no_point_is_plain (cards : Hand.t) (gs : Player.game_state)
  (c0 : Card.t) :
  In c0 cards -> plain_trump gs c0 = true ->
  exists card,
    Player.play_highest_no_point cards gs = Ok card
    /\ In card cards
    /\ plain_trump gs card = true
    /\ (forall c, In c cards -> plain_trump gs c = true ->
                  Card.rank c <= Card.rank card).
Proof.
  intros Hin Hb; unfold Player.play_highest_no_point; cbv zeta.
  unfold Player.trump_cards_of; rewrite filter_and.
  change (filter (fun x => Card.is_trump x (Player.trumps gs)
                           && (Card.points x =? 0)) cards)
    with (filter (plain_trump gs) cards).
  assert (Hne : Player.nonempty (filter (plain_trump gs) cards) = true)
    by (apply (nonempty_In _ c0), filter_In; auto).
  rewrite Hne.
  destruct (max_rank_spec _ Hne) as (card & Hc & Hcin & Hmax).
  apply filter_In in Hcin as [Hcin Hcb].
  exists card; repeat split; auto.
  intros c Hc' Hcb'; apply Hmax, filter_In; auto.
Qed.

Lemma highest_no_point_is_plain_witness :
  exists card,
    Player.play_highest_no_point (Player.hand spades_player) queen_led
    = Ok card
    /\ In card (Player.hand spades_player)
    /\ plain_trump queen_led card = true
    /\ (forall c, In c (Player.hand spades_player) ->
                  plain_trump queen_led c = true ->
                  Card.rank c <= Card.rank card).
Proof.
  apply (highest_no_point_is_plain (Player.hand spades_player) queen_led
           (Card.Make "9" "Spades" "9♠" "9" 9 0 (Some "Spades")));
    [cbn; tauto | reflexivity].
Defined.

End PlayExtras.

Section PlayCardExtras.

Lemma remove_one (l1 l2 : list Card.t) (c : Card.t) :
  distinct (l1 ++ c :: l2) ->
  Hand.remove_cards (l1 ++ c :: l2) (inr c) = l1 ++ l2.
Proof.
  unfold distinct; rewrite map_app; cbn [map]; intros H.
  apply NoDup_remove_2 in H; rewrite <- map_app in H.
  assert (Hk : forall x, In x (l1 ++ l2) ->
                         negb (Hand.contains x [c]) = true).
  { intros x Hx; apply negb_true_iff.
    cbn [Hand.contains existsb]; rewrite orb_false_r.
    unfold Card.eq; apply String.eqb_neq; intros E; apply H.
    rewrite E; now apply in_map. }
  unfold Hand.remove_cards; rewrite filter_app; cbn [filter].
  replace (Hand.contains c [c]) with true
    by (cbn; unfold Card.eq; now rewrite String.eqb_refl).
  cbn [negb].
  rewrite !filter_all; [reflexivity | |];
    apply Forall_forall; intros x Hx; apply Hk, in_or_app; auto.
Qed.

Lemma play_random_spec (r : nat) (cards : Hand.t) (gs : Player.game_state) :
  cards <> [] ->
  exists card,
    Player.play_random r cards gs = Ok card
    /\ In card cards
    /\ (Player.trumps_led gs = true ->
        forall c0, In c0 cards ->
                   Card.is_trump c0 (Player.trumps gs) = true ->
                   Card.is_trump card (Player.trumps gs) = true).
Proof.
  intros H.
  assert (Hne : Player.nonempty cards = true)
    by (destruct cards; [contradiction | reflexivity]).
  unfold Player.play_random; cbv zeta.
  destruct (Player.trumps_led gs); cbn [andb].
  - destruct (Player.nonempty (Player.trump_cards_of cards gs)) eqn:E.
    + destruct (picks_choice (Player.trump_cards_of cards gs) r
                  (Player.trump_cards_of cards gs) (incl_refl _) E)
        as (card & Hc & Hin).
      unfold Player.trump_cards_of in Hin; apply filter_In in Hin as [Hin Ht].
      exists card; repeat split; auto.
    + destruct (picks_choice cards r cards (incl_refl _) Hne)
        as (card & Hc & Hin).
      exists card; repeat split; auto.
      intros _ c0 Hc0 Ht0.
      assert (Hn : Player.nonempty (Player.trump_cards_of cards gs) = true)
        by (apply (nonempty_In _ c0), filter_In; auto).
      congruence.
  - destruct (picks_choice cards r cards (incl_refl _) Hne)
      as (card & Hc & Hin).
    exists card; repeat split; auto; discriminate.
Qed.

(** X24: [play_card] with one of the ten strategies, on a hand that is not empty
    and holds no two equal cards: the card is returned, the hand is left
    without it and otherwise as it was, in the same order. *)
Theorem play_card_removes (r : nat) (s : Player.strategy) (self : Player.t)
  (gs : Player.game_state) :
  Player.hand self <> [] -> distinct (Player.hand self) ->
  exists card l1 l2,
    Player.play_card r (Player.builtin s) self gs
    = Ok (card, Player.set_hand self (l1 ++ l2))
    /\ Player.hand self = l1 ++ card :: l2.
Proof.
  intros H Hd.
  assert (Hne : Player.nonempty (Player.hand self) = true)
    by (destruct (Player.hand self); [contradiction | reflexivity]).
  destruct (select_picks (Player.hand self) Hne s gs) as (card & Hc & Hin).
  destruct (in_split _ _ Hin) as (l1 & l2 & E).
  exists card, l1, l2; split; [|assumption].
  unfold Player.play_card, Player.builtin; rewrite Hc; cbn [bind].
  rewrite E in Hd |- *; now rewrite remove_one.
Qed.

Lemma spades_player_distinct : distinct (Player.hand spades_player).
Proof.
  unfold distinct; cbn.
  repeat (constructor; [cbn; intuition discriminate|]); constructor.
Qed.

Lemma play_card_removes_witness :
  exists card l1 l2,
    Player.play_card 0 (Player.builtin Player.JustHigher) spades_player
                     queen_led
    = Ok (card, Player.set_hand spades_player (l1 ++ l2))
    /\ Player.hand spades_player = l1 ++ card :: l2.
Proof.
  apply (play_card_removes 0 Player.JustHigher spades_player queen_led);
    [discriminate | apply spades_player_distinct].
Defined.

(** X25: [play_card] with a strategy that selects nothing ([None]), on a hand
    that is not empty and holds no two equal cards: a card of the hand
    chosen at random is returned and removed, a trump card when trump was
    led and the hand holds trump. *)
Theorem play_card_falls_back (r : nat)
  (play_strategy : Player.t -> Player.game_state -> result (option Card.t))
  (self : Player.t) (gs : Player.game_state) :
  play_strategy self gs = Ok None ->
  Player.hand self <> [] -> distinct (Player.hand self) ->
  exists card l1 l2,
    Player.play_card r play_strategy self gs
    = Ok (card, Player.set_hand self (l1 ++ l2))
    /\ Player.hand self = l1 ++ card :: l2
    /\ (Player.trumps_led gs = true ->
        forall c0, In c0 (Player.hand self) ->
                   Card.is_trump c0 (Player.trumps gs) = true ->
                   Card.is_trump card (Player.trumps gs) = true).
Proof.
  intros Hs H Hd.
  destruct (play_random_spec r (Player.hand self) gs H)
    as (card & Hc & Hin & Ht).
  destruct (in_split _ _ Hin) as (l1 & l2 & E).
  exists card, l1, l2; split; [|split; assumption].
  unfold Player.play_card; rewrite Hs; cbn [bind]; rewrite Hc; cbn [bind].
  rewrite E in Hd |- *; now rewrite remove_one.
Qed.

Lemma play_card_falls_back_witness :
  exists card l1 l2,
    Player.play_card 3 (fun _ _ => Ok None) spades_player queen_led
    = Ok (card, Player.set_hand spades_player (l1 ++ l2))
    /\ Player.hand spades_player = l1 ++ card :: l2
    /\ (Player.trumps_led queen_led = true ->
        forall c0, In c0 (Player.hand spades_player) ->
                   Card.is_trump c0 (Player.trumps queen_led) = true ->
                   Card.is_trump card (Player.trumps queen_led) = true).
Proof.
  apply (play_card_falls_back 3 (fun _ _ => Ok None) spades_player queen_led);
    [reflexivity | discriminate | apply spades_player_distinct].
Defined.

End PlayCardExtras.

(* ================================================================== *)
(** ** The deck                                                        *)
(* ================================================================== *)

(** The cards of a deck as [Deck()] builds it. *)
Definition fresh_deck : Deck.t :=
  Eval vm_compute in
    match Deck.init with
    | Ok cards => cards
    | Raise _ => []
    end.

(** No string occurs twice in the list. *)
Fixpoint all_different (l : list string) : bool :=
  match l with
  | [] => true
  | x :: xs => negb (existsb (String.eqb x) xs) && all_different xs
  end.

Definition sample_error : exn :=
  ValueError "Sample larger than population or is negative".

Section DeckExtras.

Lemma all_different_NoDup (l : list string) :
  all_different l = true -> NoDup l.
Proof.
  induction l as [|x xs IH]; cbn [all_different]; intros H; [constructor|].
  apply andb_true_iff in H as [Hx Hxs]; constructor; [|auto].
  apply negb_true_iff in Hx; intros Hin.
  assert (E : existsb (String.eqb x) xs = true)
    by (apply existsb_exists; exists x; split;
        [assumption | apply String.eqb_refl]).
  congruence.
Qed.



(** X27: [draw] takes the last card of the deck; on an empty deck it returns
    [None] and leaves the deck empty. *)
Theorem draw_spec (cards : Deck.t) (c : Card.t) :
  Deck.draw (cards ++ [c]) = (Some c, cards)
  /\ Deck.draw [] = (None, []).
Proof.
  split; [|reflexivity].
  unfold Deck.draw, pop.
  rewrite length_app, rev_app_distr; cbn [length rev app].
  rewrite rev_involutive.
  replace (Z.of_nat (length cards + 1) >? 0) with true; [reflexivity|].
  symmetry; rewrite Z.gtb_ltb; apply Z.ltb_lt; lia.
Qed.

(** *** Dealing *)

Lemma remove_at_perm {A : Type} (j : nat) (pool : list A) (x : A) :
  nth_error pool j = Some x -> Permutation (x :: remove_at j pool) pool.
Proof.
  revert j; induction pool as [|y ys IH]; intros [|j] H; cbn in H;
    try discriminate.
  - inversion H; reflexivity.
  - cbn [remove_at]; rewrite perm_swap; constructor; now apply IH.
Qed.

Lemma sample_from_perm {A : Type} (k : nat) (draws : list nat)
  (pool : list A) :
  (k <= length pool)%nat ->
  exists rest,
    Permutation (sample_from draws pool k ++ rest) pool
    /\ length (sample_from draws pool k) = k.
Proof.
  revert draws pool; induction k as [|k IH]; intros draws pool Hk.
  - exists pool; split; reflexivity.
  - cbn [sample_from].
    assert (Hj : (hd 0%nat draws mod length pool < length pool)%nat)
      by (apply Nat.mod_upper_bound; lia).
    destruct (nth_error pool (hd 0%nat draws mod length pool)) as [x|] eqn:E;
      [|apply nth_error_None in E; lia].
    pose proof (remove_at_perm _ _ _ E) as Hp.
    assert (Hl : length (remove_at (hd 0%nat draws mod length pool) pool)
                 = (length pool - 1)%nat)
      by (apply Permutation_length in Hp; cbn [length] in Hp; lia).
    destruct (IH (tl draws) (remove_at (hd 0%nat draws mod length pool) pool))
      as (rest & Hr & Hlen); [lia|].
    exists rest; split; [|cbn [length]; lia].
    cbn [app]; eapply perm_trans; [|exact Hp]; now constructor.
Qed.

Lemma distinct_perm (l l' : list Card.t) :
  Permutation l l' -> distinct l -> distinct l'.
Proof.
  unfold distinct; intros Hp; apply Permutation_NoDup.
  now apply Permutation_map.
Qed.

Lemma remove_distinct (x : Card.t) (l : list Card.t) :
  distinct l -> In x l ->
  exists l', remove Card.eq x l = Ok l' /\ Permutation (x :: l') l.
Proof.
  unfold distinct; induction l as [|y ys IH]; cbn [map remove];
    intros Hd Hin; [contradiction|].
  inversion Hd as [|? ? Hny Hdys]; subst.
  unfold Card.eq at 1.
  destruct (String.eqb_spec (Card.short_name y) (Card.short_name x))
    as [E|E].
  - destruct Hin as [->|Hin]; [exists ys; split; reflexivity|].
    exfalso; apply Hny; rewrite E; now apply in_map.
  - destruct Hin as [->|Hin]; [congruence|].
    destruct (IH Hdys Hin) as (l' & -> & Hp).
    cbn [bind]; exists (y :: l'); split; [reflexivity|].
    rewrite perm_swap; now constructor.
Qed.

Lemma remove_all (hand rest cards : list Card.t) :
  distinct cards -> Permutation (hand ++ rest) cards ->
  exists cards',
    foldM (fun cards next_card => remove Card.eq next_card cards) hand cards
    = Ok cards'
    /\ Permutation cards' rest.
Proof.
  revert cards; induction hand as [|x hs IH]; intros cards Hd Hp;
    cbn [foldM].
  - exists cards; split; [reflexivity | now symmetry].
  - assert (Hin : In x cards)
      by (apply (Permutation_in _ Hp); now left).
    destruct (remove_distinct x cards Hd Hin) as (c1 & -> & Hp1).
    cbn [bind]; apply IH.
    + apply (distinct_perm cards (x :: c1)) in Hd; [|now symmetry].
      unfold distinct in *; cbn [map] in Hd; now inversion Hd.
    + apply Permutation_cons_inv with (a := x).
      cbn [app] in Hp; eapply perm_trans; [exact Hp | now symmetry].
Qed.

Lemma deal_hand_spec (draws : list nat) (cards : Deck.t) (ncards : Z) :
  distinct cards -> Z.max ncards 0 <= Z.of_nat (length cards) ->
  exists hand cards',
    Deck.deal_hand draws cards ncards = Ok (hand, cards')
    /\ Permutation (hand ++ cards') cards
    /\ Z.of_nat (length hand) = Z.max ncards 0
    /\ descending hand.
Proof.
  intros Hd Hn; unfold Deck.deal_hand.
  rewrite Z.gtb_ltb; destruct (Z.ltb_spec 0 ncards) as [Hpos|Hle].
  - unfold sample.
    replace ((ncards <? 0) || (Z.of_nat (length cards) <? ncards)) with false
      by (symmetry; apply orb_false_iff; split; apply Z.ltb_ge; lia).
    cbn [bind].
    destruct (sample_from_perm (Z.to_nat ncards) draws cards)
      as (rest & Hp & Hlen); [lia|].
    destruct (remove_all _ rest cards Hd Hp) as (cards' & -> & Hp').
    cbn [bind]; eexists; eexists; split; [reflexivity|].
    split; [|split].
    + rewrite sort_desc_perm, Hp'; exact Hp.
    + rewrite sort_desc_length, Hlen; lia.
    + apply (sort_desc_sorted Card.rank).
  - exists [], cards; split; [reflexivity|]; split; [reflexivity|].
    split; [cbn [length]; lia | constructor].
Qed.

Lemma deal_loop_spec (n : nat) (draws : list (list nat)) (cards : Deck.t)
  (ncards : Z) :
  distinct cards ->
  Z.of_nat n * Z.max ncards 0 <= Z.of_nat (length cards) ->
  exists hands cards',
    Deck.deal_loop n draws cards ncards = Ok (hands, cards')
    /\ Permutation (concat hands ++ cards') cards
    /\ length hands = n
    /\ Forall (fun hand => Z.of_nat (length hand) = Z.max ncards 0
                           /\ descending hand) hands.
Proof.
  revert draws cards; induction n as [|n IH]; intros draws cards Hd Hn;
    cbn [Deck.deal_loop].
  - exists [], cards; split; [reflexivity|]; split; [reflexivity|].
    split; [reflexivity | constructor].
  - destruct (deal_hand_spec (hd [] draws) cards ncards Hd)
      as (hand & c1 & -> & Hp & Hlen & Hdesc); [nia|].
    cbn [bind snd fst].
    assert (Hd1 : distinct c1).
    { apply (distinct_perm _ _ (Permutation_sym Hp)) in Hd.
      unfold distinct in *; rewrite map_app in Hd.
      now apply NoDup_app_remove_l in Hd. }
    assert (Hl1 : Z.of_nat (length c1)
                  = Z.of_nat (length cards) - Z.max ncards 0).
    { apply Permutation_length in Hp; rewrite length_app in Hp; lia. }
    destruct (IH (tl draws) c1 Hd1) as (hands & c2 & -> & Hp2 & Hl2 & Hf);
      [nia|].
    cbn [bind fst snd]; eexists; eexists; split; [reflexivity|].
    split; [|split; [cbn [length]; lia | constructor; auto]].
    cbn [concat]; rewrite <- app_assoc, Hp2; exact Hp.
Qed.

(** X28: dealing from a deck of pairwise different cards that holds enough of
    them returns the hands asked for, each of the size asked for and in
    descending order of rank, and leaves in the deck the cards it has not
    dealt: the hands and the deck are together the deck as it was. *)
Theorem deal_conserves (draws : list (list nat)) (cards : Deck.t)
  (nhands ncards : Z) :
  distinct cards ->
  Z.max nhands 0 * Z.max ncards 0 <= Z.of_nat (length cards) ->
  exists hands cards',
    Deck.deal draws cards nhands ncards = Ok (hands, cards')
    /\ Permutation (concat hands ++ cards') cards
    /\ Z.of_nat (length hands) = Z.max nhands 0
    /\ Forall (fun hand => Z.of_nat (length hand) = Z.max ncards 0
                           /\ descending hand) hands.
Proof.
  intros Hd Hn; unfold Deck.deal.
  destruct (deal_loop_spec (Z.to_nat nhands) draws cards ncards Hd)
    as (hands & cards' & E & Hp & Hl & Hf); [lia|].
  exists hands, cards'; repeat split; auto; lia.
Qed.

Lemma fresh_deck_distinct : distinct fresh_deck.
Proof. apply all_different_NoDup; vm_compute; reflexivity. Qed.

(** Four hands of nine cards from a fresh deck. *)
Lemma deal_conserves_witness :
  exists hands cards',
    Deck.deal [[3; 100; 7]; [0; 0; 0; 0]]%nat fresh_deck 4 9
    = Ok (hands, cards')
    /\ Permutation (concat hands ++ cards') fresh_deck
    /\ Z.of_nat (length hands) = Z.max 4 0
    /\ Forall (fun hand => Z.of_nat (length hand) = Z.max 9 0
                           /\ descending hand) hands.
Proof.
  apply (deal_conserves [[3; 100; 7]; [0; 0; 0; 0]]%nat fresh_deck 4 9);
    [apply fresh_deck_distinct | cbn; lia].
Defined.

(** X29: dealing more cards than the deck holds raises the [ValueError] of
    [random.sample]. *)
Theorem deal_too_many (draws : list (list nat)) (cards : Deck.t)
  (nhands ncards : Z) :
  distinct cards -> 0 < ncards ->
  Z.of_nat (length cards) < nhands * ncards ->
  Deck.deal draws cards nhands ncards = Raise sample_error.
Proof.
  intros Hd Hc Hn; unfold Deck.deal.
  assert (Hn' : Z.of_nat (length cards) < Z.of_nat (Z.to_nat nhands) * ncards)
    by nia.
  clear Hn; revert draws cards Hd Hn'.
  induction (Z.to_nat nhands) as [|n IH]; intros draws cards Hd Hn;
    [lia|].
  cbn [Deck.deal_loop].
  destruct (Z.ltb_spec (Z.of_nat (length cards)) ncards) as [Hlt|Hge].
  - unfold Deck.deal_hand, sample.
    replace (ncards >? 0) with true
      by (symmetry; rewrite Z.gtb_ltb; now apply Z.ltb_lt).
    replace ((ncards <? 0) || (Z.of_nat (length cards) <? ncards)) with true
      by (symmetry; apply orb_true_iff; right; now apply Z.ltb_lt).
    reflexivity.
  - destruct (deal_hand_spec (hd [] draws) cards ncards Hd)
      as (hand & c1 & -> & Hp & Hlen & _); [lia|].
    cbn [bind snd fst].
    assert (Hd1 : distinct c1).
    { apply (distinct_perm _ _ (Permutation_sym Hp)) in Hd.
      unfold distinct in *; rewrite map_app in Hd.
      now apply NoDup_app_remove_l in Hd. }
    rewrite IH; [reflexivity | assumption|].
    apply Permutation_length in Hp; rewrite length_app in Hp; lia.
Qed.

(** Seven hands of nine cards from the 54 cards of a fresh deck. *)
Lemma deal_too_many_witness :
  Deck.deal [] fresh_deck 7 9 = Raise sample_error.
Proof.
  apply (deal_too_many [] fresh_deck 7 9);
    [apply fresh_deck_distinct | lia | cbn; lia].
Defined.

End DeckExtras.
